(** * SimpleCV.Features.Features: features, feature sets and their geometry

    A shallow embedding of [SimpleCV/Features/Features.py] (classes
    [Feature] and [FeatureSet]) and the properties of its spatial
    predicates, extents cache, sorting and filtering.

    Conventions of the embedding.
    - Pixel coordinates, radii and scalars are Python integers, modelled
      by [Z].  The only floats the code itself creates are the sentinels
      [float("infinity")], [float("-infinity")] and the quotient computed
      in [_pointInsidePolygon]; the former are the constructors [PosInf]
      and [NegInf] of [num], the latter is an exact rational ([flt]).
    - A Python call that can raise returns a [res]; warnings emitted with
      [warnings.warn] are collected, in order, next to the result ([M]).
    - A method that assigns attributes of [self] returns the new [self]. *)

From Stdlib Require Import ZArith QArith String List Bool Lia.
From Stdlib Require Import Permutation Sorted.
Import ListNotations.
Local Open Scope Z_scope.

(** ** Python results: exceptions and warnings *)

Inductive exn : Type :=
| ZeroDivisionError
| TypeError
| IndexError
| ValueError.

Inductive res (A : Type) : Type :=
| Ret (a : A)
| Raise (e : exn).
Arguments Ret {A} a.
Arguments Raise {A} e.

(** The warnings emitted so far, oldest first, and the outcome. *)
Definition M (A : Type) : Type := (list string * res A)%type.

Definition ret {A} (a : A) : M A := ([], Ret a).
Definition raise {A} (e : exn) : M A := ([], Raise e).
Definition warn (msg : string) : M unit := ([msg], Ret tt).
Definition bind {A B} (m : M A) (k : A -> M B) : M B :=
  match m with
  | (w, Ret a) => let (w', r) := k a in (w ++ w', r)
  | (w, Raise e) => (w, Raise e)
  end.

Notation "x <- m ;; k" := (bind m (fun x => k))
  (at level 61, m at next level, right associativity).
Notation "m ;;; k" := (bind m (fun _ => k))
  (at level 61, right associativity).

Definition warnings {A} (m : M A) : list string := fst m.
Definition outcome {A} (m : M A) : res A := snd m.

(** ** Numbers *)

Module Num.

(** A Python number as the code meets it: an integer, or one of the
    float values infinity, -infinity and nan. *)
Inductive num : Type :=
| NegInf
| Fin (z : Z)
| PosInf
| NaN.

(** [a < b]; every comparison with nan is false. *)
Definition ltb (a b : num) : bool :=
  match a, b with
  | NaN, _ | _, NaN => false
  | NegInf, NegInf => false
  | NegInf, _ => true
  | Fin _, NegInf => false
  | Fin u, Fin v => u <? v
  | Fin _, PosInf => true
  | PosInf, _ => false
  end.

(** [a <= b]. *)
Definition leb (a b : num) : bool :=
  match a, b with
  | NaN, _ | _, NaN => false
  | NegInf, _ => true
  | Fin _, NegInf => false
  | Fin u, Fin v => u <=? v
  | Fin _, PosInf => true
  | PosInf, PosInf => true
  | PosInf, _ => false
  end.

Definition gtb (a b : num) : bool := ltb b a.
Definition geb (a b : num) : bool := leb b a.

(** [a == b]; nan differs from everything, itself included. *)
Definition eqb (a b : num) : bool :=
  match a, b with
  | NegInf, NegInf | PosInf, PosInf => true
  | Fin u, Fin v => u =? v
  | _, _ => false
  end.

Definition neqb (a b : num) : bool := negb (eqb a b).

Definition add (a b : num) : num :=
  match a, b with
  | NaN, _ | _, NaN => NaN
  | Fin u, Fin v => Fin (u + v)
  | PosInf, NegInf | NegInf, PosInf => NaN
  | PosInf, _ | _, PosInf => PosInf
  | NegInf, _ | _, NegInf => NegInf
  end.

Definition opp (a : num) : num :=
  match a with
  | NegInf => PosInf
  | Fin u => Fin (- u)
  | PosInf => NegInf
  | NaN => NaN
  end.

Definition sub (a b : num) : num := add a (opp b).

(** The sign of an infinite product is the product of the signs;
    [0 * inf] is nan. *)
Definition mul (a b : num) : num :=
  match a, b with
  | NaN, _ | _, NaN => NaN
  | Fin u, Fin v => Fin (u * v)
  | Fin u, PosInf | PosInf, Fin u =>
      if u =? 0 then NaN else if 0 <? u then PosInf else NegInf
  | Fin u, NegInf | NegInf, Fin u =>
      if u =? 0 then NaN else if 0 <? u then NegInf else PosInf
  | PosInf, PosInf | NegInf, NegInf => PosInf
  | PosInf, NegInf | NegInf, PosInf => NegInf
  end.

(** [np.min((a, b))] and [np.max((a, b))]: nan propagates. *)
Definition min (a b : num) : num :=
  match a, b with
  | NaN, _ | _, NaN => NaN
  | _, _ => if ltb b a then b else a
  end.

Definition max (a b : num) : num :=
  match a, b with
  | NaN, _ | _, NaN => NaN
  | _, _ => if ltb a b then b else a
  end.

(** A Python float that is the quotient of two numbers. *)
Inductive flt : Type :=
| FNegInf
| FFin (q : Q)
| FPosInf
| FNaN.

(** [float(a) / float(b)]: a zero divisor raises, whatever the
    dividend; the quotient of two integers is kept exact. *)
Definition float_div (a b : num) : M flt :=
  match b with
  | Fin 0 => raise ZeroDivisionError
  | NaN => ret FNaN
  | Fin v =>
      match a with
      | NaN => ret FNaN
      | Fin u => ret (FFin (inject_Z u / inject_Z v)%Q)
      | PosInf => ret (if 0 <? v then FPosInf else FNegInf)
      | NegInf => ret (if 0 <? v then FNegInf else FPosInf)
      end
  | PosInf | NegInf =>
      match a with
      | Fin _ => ret (FFin 0%Q)
      | _ => ret FNaN
      end
  end.

(** [a <= t] for a number [a] and a quotient [t]. *)
Definition le_flt (a : num) (t : flt) : bool :=
  match a, t with
  | NaN, _ | _, FNaN => false
  | NegInf, _ => true
  | Fin _, FNegInf => false
  | Fin u, FFin q => Qle_bool (inject_Z u) q
  | Fin _, FPosInf => true
  | PosInf, FPosInf => true
  | PosInf, _ => false
  end.

End Num.
Import Num.

(** A coordinate pair [(x, y)] as it sits in a bounding box. *)
Definition coord : Type := (num * num)%type.

(** A pair of Python integers seen as a point. *)
Definition pt (p : Z * Z) : coord := (Fin (fst p), Fin (snd p)).

(** ** The image surface *)

(** Of the image only its dimensions matter here: [size()] is
    [(width, height)]. *)
Record Image : Type := mkImage { size : Z * Z }.

(** ** class Feature *)

Module Feature.

(** What the name [boundingBox] denotes on an instance.  The class body
    binds [boundingBox] twice, first to [[]] (line 821) and later to the
    method [def boundingBox(self)] (line 1150), so the class attribute
    is the method; an instance sees the bound method until
    [_updateExtents] assigns the instance attribute (line 1148). *)
Inductive attr : Type :=
| BoundMethod
| PointList (l : list coord).

Record t : Type := mk {
  x : Z;
  y : Z;
  image : Image;
  points : list (Z * Z);
  mMaxX : option num;
  mMaxY : option num;
  mMinX : option num;
  mMinY : option num;
  boundingBox : attr
}.

(** [Feature(i, at_x, at_y)]: the three assignments of [__init__]; the
    other attributes are the class defaults. *)
Definition __init__ (i : Image) (at_x at_y : Z) : t :=
  {| x := at_x; y := at_y; image := i;
     points := [];
     mMaxX := None; mMaxY := None; mMinX := None; mMinY := None;
     boundingBox := BoundMethod |}.

(** [self.points = pts], the only way the base class gets its points. *)
Definition set_points (self : t) (pts : list (Z * Z)) : t :=
  {| x := x self; y := y self; image := image self;
     points := pts;
     mMaxX := mMaxX self; mMaxY := mMaxY self;
     mMinX := mMinX self; mMinY := mMinY self;
     boundingBox := boundingBox self |}.

(** One pass of the loop of [width] ([height]) over a coordinate. *)
Definition span_step (acc : num * num) (c : Z) : num * num :=
  let '(hi, lo) := acc in
  let hi := if gtb (Fin c) hi then Fin c else hi in
  let lo := if ltb (Fin c) lo then Fin c else lo in
  (hi, lo).

Definition width (self : t) : num :=
  if (length (points self) <=? 0)%nat then Fin 1
  else
    let '(maxX, minX) :=
      fold_left (fun acc p => span_step acc (fst p)) (points self)
                (NegInf, PosInf) in
    sub maxX minX.

Definition height (self : t) : num :=
  if (length (points self) <=? 0)%nat then Fin 1
  else
    let '(maxY, minY) :=
      fold_left (fun acc p => span_step acc (snd p)) (points self)
                (NegInf, PosInf) in
    sub maxY minY.

Definition area (self : t) : num := mul (width self) (height self).

(** The four running extremes of [_updateExtents], in the order
    [(mMaxX, mMaxY, mMinX, mMinY)]. *)
Definition extent_step (acc : num * num * num * num) (p : Z * Z)
  : num * num * num * num :=
  let '(maxX, maxY, minX, minY) := acc in
  let maxX := if gtb (Fin (fst p)) maxX then Fin (fst p) else maxX in
  let minX := if ltb (Fin (fst p)) minX then Fin (fst p) else minX in
  let maxY := if gtb (Fin (snd p)) maxY then Fin (snd p) else maxY in
  let minY := if ltb (Fin (snd p)) minY then Fin (snd p) else minY in
  (maxX, maxY, minX, minY).

Definition scan_extents (pts : list (Z * Z)) : num * num * num * num :=
  fold_left extent_step pts (NegInf, NegInf, PosInf, PosInf).

Definition is_None {A} (o : option A) : bool :=
  match o with None => true | Some _ => false end.

Definition _updateExtents (self : t) : t :=
  if is_None (mMaxX self) || is_None (mMaxY self)
     || is_None (mMinX self) || is_None (mMinY self)
  then
    let '(maxX, maxY, minX, minY) := scan_extents (points self) in
    {| x := x self; y := y self; image := image self;
       points := points self;
       mMaxX := Some maxX; mMaxY := Some maxY;
       mMinX := Some minX; mMinY := Some minY;
       boundingBox :=
         PointList [(minX, minY); (minX, maxY); (maxX, maxY); (maxX, minY)] |}
  else self.

(** The value of an extent attribute once [_updateExtents] has run; the
    attribute is never [None] then (lemma [updateExtents_cached]). *)
Definition cached (o : option num) : num :=
  match o with Some v => v | None => NaN end.

Definition minY (self : t) : t * num :=
  let self := _updateExtents self in (self, cached (mMinY self)).
Definition maxY (self : t) : t * num :=
  let self := _updateExtents self in (self, cached (mMaxY self)).
Definition minX (self : t) : t * num :=
  let self := _updateExtents self in (self, cached (mMinX self)).
Definition maxX (self : t) : t * num :=
  let self := _updateExtents self in (self, cached (mMaxX self)).

Definition extents (self : t) : t * (num * num * num * num) :=
  let self := _updateExtents self in
  (self, (cached (mMaxX self), cached (mMaxY self),
          cached (mMinX self), cached (mMinY self))).

Definition topLeftCorner (self : t) : t * coord :=
  let self := _updateExtents self in
  (self, (cached (mMinX self), cached (mMinY self))).
Definition bottomRightCorner (self : t) : t * coord :=
  let self := _updateExtents self in
  (self, (cached (mMaxX self), cached (mMaxY self))).
Definition bottomLeftCorner (self : t) : t * coord :=
  let self := _updateExtents self in
  (self, (cached (mMinX self), cached (mMaxY self))).
Definition topRightCorner (self : t) : t * coord :=
  let self := _updateExtents self in
  (self, (cached (mMaxX self), cached (mMinY self))).

(** *** Region descriptors

    The predicates inspect the dynamic type of their argument. *)
Inductive pyobj : Type :=
| OFeature (g : t)
| OTuple (elems : list Z)
| ONdarray (elems : list Z)
| OInt (n : Z)
| OFloat (v : num)
| OList (pts : list (Z * Z))
| OStr (s : string)
| ONone.

Inductive pytype : Type :=
| TFeature | TTuple | TNdarray | TInt | TFloat | TList | TStr | TNoneType.

Definition type_of (o : pyobj) : pytype :=
  match o with
  | OFeature _ => TFeature
  | OTuple _ => TTuple
  | ONdarray _ => TNdarray
  | OInt _ => TInt
  | OFloat _ => TFloat
  | OList _ => TList
  | OStr _ => TStr
  | ONone => TNoneType
  end.

Definition pytype_eqb (a b : pytype) : bool :=
  match a, b with
  | TFeature, TFeature | TTuple, TTuple | TNdarray, TNdarray
  | TInt, TInt | TFloat, TFloat | TList, TList | TStr, TStr
  | TNoneType, TNoneType => true
  | _, _ => false
  end.

Definition isinstance (o : pyobj) (ty : pytype) : bool :=
  pytype_eqb (type_of o) ty.

(** [object[i]] on a tuple or an array of numbers. *)
Definition getitem (elems : list Z) (i : nat) : M num :=
  match nth_error elems i with
  | Some v => ret (Fin v)
  | None => raise IndexError
  end.

(** *** above, below, right, left

    Each returns [self] and the argument after the call (the extent
    accessors fill their caches), and [None] (Python's [None]) for an
    argument it does not recognise. *)

Definition above (self : t) (object : pyobj) : t * pyobj * M (option bool) :=
  match object with
  | OFeature g =>
      let '(self, a) := maxY self in
      let '(g, b) := minY g in
      (self, OFeature g, ret (Some (ltb a b)))
  | OTuple elems | ONdarray elems =>
      let '(self, a) := maxY self in
      (self, object, b <- getitem elems 1 ;; ret (Some (ltb a b)))
  | OInt n =>
      let '(self, a) := maxY self in
      (self, object, ret (Some (ltb a (Fin n))))
  | OFloat v =>
      let '(self, a) := maxY self in
      (self, object, ret (Some (ltb a v)))
  | _ =>
      (self, object,
       warn "SimpleCV did not recognize the input type to feature.above(). This method only takes another feature, an (x,y) tuple, or a ndarray type." ;;;
       ret None)
  end.

Definition below (self : t) (object : pyobj) : t * pyobj * M (option bool) :=
  match object with
  | OFeature g =>
      let '(self, a) := minY self in
      let '(g, b) := maxY g in
      (self, OFeature g, ret (Some (gtb a b)))
  | OTuple elems | ONdarray elems =>
      let '(self, a) := minY self in
      (self, object, b <- getitem elems 1 ;; ret (Some (gtb a b)))
  | OInt n =>
      let '(self, a) := minY self in
      (self, object, ret (Some (gtb a (Fin n))))
  | OFloat v =>
      let '(self, a) := minY self in
      (self, object, ret (Some (gtb a v)))
  | _ =>
      (self, object,
       warn "SimpleCV did not recognize the input type to feature.below(). This method only takes another feature, an (x,y) tuple, or a ndarray type." ;;;
       ret None)
  end.

Definition right (self : t) (object : pyobj) : t * pyobj * M (option bool) :=
  match object with
  | OFeature g =>
      let '(self, a) := minX self in
      let '(g, b) := maxX g in
      (self, OFeature g, ret (Some (gtb a b)))
  | OTuple elems | ONdarray elems =>
      let '(self, a) := minX self in
      (self, object, b <- getitem elems 0 ;; ret (Some (gtb a b)))
  | OInt n =>
      let '(self, a) := minX self in
      (self, object, ret (Some (gtb a (Fin n))))
  | OFloat v =>
      let '(self, a) := minX self in
      (self, object, ret (Some (gtb a v)))
  | _ =>
      (self, object,
       warn "SimpleCV did not recognize the input type to feature.right(). This method only takes another feature, an (x,y) tuple, or a ndarray type." ;;;
       ret None)
  end.

Definition left (self : t) (object : pyobj) : t * pyobj * M (option bool) :=
  match object with
  | OFeature g =>
      let '(self, a) := maxX self in
      let '(g, b) := minX g in
      (self, OFeature g, ret (Some (ltb a b)))
  | OTuple elems | ONdarray elems =>
      let '(self, a) := maxX self in
      (self, object, b <- getitem elems 0 ;; ret (Some (ltb a b)))
  | OInt n =>
      let '(self, a) := maxX self in
      (self, object, ret (Some (ltb a (Fin n))))
  | OFloat v =>
      let '(self, a) := maxX self in
      (self, object, ret (Some (ltb a v)))
  | _ =>
      (self, object,
       warn "SimpleCV did not recognize the input type to feature.left(). This method only takes another feature, an (x,y) tuple, or a ndarray type." ;;;
       ret None)
  end.


(** *** _pointInsidePolygon *)

(** The body of the loop for the edge from [p1] to [p2]: the new value
    of [counter]. *)
Definition edge_step (point p1 p2 : coord) (counter : Z) : M Z :=
  if gtb (snd point) (min (snd p1) (snd p2)) then
    if leb (snd point) (max (snd p1) (snd p2)) then
      if leb (fst point) (max (fst p1) (fst p2)) then
        if neqb (snd p1) (snd p2) then
          test <- float_div
                    (mul (sub (snd point) (snd p1)) (sub (fst p2) (fst p1)))
                    (add (sub (snd p2) (snd p1)) (fst p1)) ;;
          if eqb (fst p1) (fst p2) || le_flt (fst point) test
          then ret (counter + 1)
          else ret counter
        else ret counter
      else ret counter
    else ret counter
  else ret counter.

(** [for i in range(1,N+1): p2 = poly[i%N]; ...; p1 = p2], over the
    indices still to visit. *)
Fixpoint edge_loop (point : coord) (poly : list coord) (N : nat)
         (indices : list nat) (p1 : coord) (counter : Z) : M Z :=
  match indices with
  | [] => ret counter
  | i :: rest =>
      let p2 := nth (i mod N) poly p1 in
      counter <- edge_step point p1 p2 counter ;;
      edge_loop point poly N rest p2 counter
  end.

(** The sequence part of the method, for an argument that is a list. *)
Definition pointInsidePolygon_list (point : coord) (polygon : list coord)
  : M bool :=
  if (length polygon <? 3)%nat then
    warn "feature._pointInsidePolygon - this is not a valid polygon" ;;;
    ret false
  else
    match polygon with
    | [] => raise IndexError
    | first :: _ =>
        let poly := polygon ++ [first] in
        let N := length poly in
        match poly with
        | [] => raise IndexError
        | p1 :: _ =>
            counter <- edge_loop point poly N (seq 1 N) p1 0 ;;
            if counter mod 2 =? 0 then ret false else ret true
        end
    end.

(** [len(polygon)] raises on a bound method. *)
Definition _pointInsidePolygon (point : coord) (polygon : attr) : M bool :=
  match polygon with
  | BoundMethod => raise TypeError
  | PointList l => pointInsidePolygon_list point l
  end.

(** *** contains, overlaps, isContainedWithin *)

(** [for p in ...: retVal = inside(p); if not retVal: break], started
    with [retVal = True]. *)
Fixpoint all_inside (inside : coord -> M bool) (ps : list coord) : M bool :=
  match ps with
  | [] => ret true
  | p :: rest =>
      r <- inside p ;;
      if r then all_inside inside rest else ret false
  end.

(** The same loop leaving at the first point inside, started with
    [retVal = False]. *)
Fixpoint any_inside (inside : coord -> M bool) (ps : list coord) : M bool :=
  match ps with
  | [] => ret false
  | p :: rest =>
      r <- inside p ;;
      if r then ret true else any_inside inside rest
  end.

(** [((x-p[0])*(x-p[0]))+((y-p[1])*(y-p[1]))]. *)
Definition sqdist (x y : Z) (p : coord) : num :=
  add (mul (sub (Fin x) (fst p)) (sub (Fin x) (fst p)))
      (mul (sub (Fin y) (snd p)) (sub (Fin y) (snd p))).

(** [for p in bounds] raises on a bound method. *)
Definition iter (bounds : attr) : M (list coord) :=
  match bounds with
  | BoundMethod => raise TypeError
  | PointList l => ret l
  end.

(** The box test shared by [contains] and [isContainedWithin]; [and]
    stops at the first false conjunct, so the later accessors may not
    be called. *)
Definition inside_box (self : t) (bx by_ bw bh : Z) : t * bool :=
  let '(self, a) := maxX self in
  if leb a (Fin (bx + bw)) then
    let '(self, b) := minX self in
    if geb b (Fin bx) then
      let '(self, c) := maxY self in
      if leb c (Fin (by_ + bh)) then
        let '(self, d) := minY self in
        (self, geb d (Fin by_))
      else (self, false)
    else (self, false)
  else (self, false).

Definition contains (self : t) (other : pyobj) : t * M bool :=
  let bounds := boundingBox self in
  match other with
  | OFeature g =>
      (self,
       all_inside (fun p2 => _pointInsidePolygon p2 bounds)
                  (map pt (points g)))
  | OTuple [a; b] | ONdarray [a; b] =>
      (self, _pointInsidePolygon (Fin a, Fin b) bounds)
  | OTuple [x; y; r] =>
      let rr := Fin (r * r) in
      (self,
       ps <- iter bounds ;;
       ret (forallb (fun p => negb (ltb (sqdist x y p) rr)) ps))
  | OTuple [bx; by_; bw; bh] =>
      let '(self, r) := inside_box self bx by_ bw bh in
      (self, ret r)
  | OList pts =>
      if (4 <=? length pts)%nat then
        (self,
         all_inside (fun p => _pointInsidePolygon p bounds) (map pt pts))
      else
        (self,
         warn "SimpleCV did not recognize the input type to features.contains. This method only takes another blob, an (x,y) tuple, or a ndarray type." ;;;
         ret false)
  | _ =>
      (self,
       warn "SimpleCV did not recognize the input type to features.contains. This method only takes another blob, an (x,y) tuple, or a ndarray type." ;;;
       ret false)
  end.

(** [a or b] on two calls of [contains]: the second is made only when
    the first returned false. *)
Definition or_else (a b : M bool) : M bool :=
  r <- a ;; if r then ret true else b.

Definition overlaps (self : t) (other : pyobj) : t * M bool :=
  let bounds := boundingBox self in
  match other with
  | OFeature g =>
      (self,
       ps <- iter (boundingBox g) ;;
       match ps with
       | [] => ret true
       | _ => any_inside (fun p => _pointInsidePolygon p bounds) ps
       end)
  | OTuple [a; b] | ONdarray [a; b] =>
      (self, _pointInsidePolygon (Fin a, Fin b) bounds)
  | OTuple [x; y; r] =>
      let rr := Fin (r * r) in
      (self,
       ps <- iter bounds ;;
       ret (existsb (fun p => ltb (sqdist x y p) rr) ps))
  | OTuple [bx; by_; bw; bh] =>
      (self,
       or_else (snd (contains self (OTuple [bx; by_])))
      (or_else (snd (contains self (OTuple [bx + bw; by_])))
      (or_else (snd (contains self (OTuple [bx; by_ + bh])))
               (snd (contains self (OTuple [bx + bw; by_ + bh]))))))
  | OList pts =>
      if (3 <=? length pts)%nat then
        (self,
         any_inside (fun p => _pointInsidePolygon p bounds) (map pt pts))
      else
        (self,
         warn "SimpleCV did not recognize the input type to features.overlaps. This method only takes another blob, an (x,y) tuple, or a ndarray type." ;;;
         ret false)
  | _ =>
      (self,
       warn "SimpleCV did not recognize the input type to features.overlaps. This method only takes another blob, an (x,y) tuple, or a ndarray type." ;;;
       ret false)
  end.

Definition doesNotContain (self : t) (other : pyobj) : t * M bool :=
  let '(self, m) := contains self other in
  (self, r <- m ;; ret (negb r)).

Definition doesNotOverlap (self : t) (other : pyobj) : t * M bool :=
  let '(self, m) := overlaps self other in
  (self, r <- m ;; ret (negb r)).

Definition isContainedWithin (self : t) (other : pyobj) : t * M bool :=
  let bounds := boundingBox self in
  match other with
  | OFeature g => (self, snd (contains g (OFeature self)))
  | OTuple [x; y; r] =>
      let rr := Fin (r * r) in
      (self,
       ps <- iter bounds ;;
       ret (forallb (fun p => negb (gtb (sqdist x y p) rr)) ps))
  | OTuple [bx; by_; bw; bh] =>
      let '(self, r) := inside_box self bx by_ bw bh in
      (self, ret r)
  | OList pts =>
      if (2 <? length pts)%nat then
        (self,
         ps <- iter bounds ;;
         all_inside (fun p => _pointInsidePolygon p (PointList (map pt pts)))
                    ps)
      else
        (self,
         warn "SimpleCV did not recognize the input type to features.contains. This method only takes another blob, an (x,y) tuple, or a ndarray type." ;;;
         ret false)
  | _ =>
      (self,
       warn "SimpleCV did not recognize the input type to features.contains. This method only takes another blob, an (x,y) tuple, or a ndarray type." ;;;
       ret false)
  end.

Definition isNotContainedWithin (self : t) (shape : pyobj) : t * M bool :=
  let '(self, m) := isContainedWithin self shape in
  (self, r <- m ;; ret (negb r)).

(** *** distanceFrom

    [spsd.euclidean] is the square root of the sum of the squared
    differences; the embedding returns that sum, an exact integer. *)
Definition euclidean_sq (u v : Z * Z) : Z :=
  (fst u - fst v) * (fst u - fst v) + (snd u - snd v) * (snd u - snd v).

(** [np.array(self.image.size()) / 2] on integers. *)
Definition image_center (i : Image) : Z * Z :=
  (fst (size i) / 2, snd (size i) / 2).

Definition distanceFrom (self : t) (point : Z * Z) : Z :=
  let point :=
    if (fst point =? -1) || (snd point =? -1)
    then image_center (image self)
    else point in
  euclidean_sq point (x self, y self).

(** *** The method boundingBox and the image attribute *)


(** [self.image = i]. *)
Definition set_image (self : t) (i : Image) : t :=
  {| x := x self; y := y self; image := i;
     points := points self;
     mMaxX := mMaxX self; mMaxY := mMaxY self;
     mMinX := mMinX self; mMinY := mMinY self;
     boundingBox := boundingBox self |}.

End Feature.

(** ** The library calls made by FeatureSet *)

Section Sorted.

Context {A K : Type} (lt : K -> K -> bool) (key : A -> K).

(** [a] goes in front of the first element whose key is not smaller
    than its own. *)
Fixpoint insert (a : A) (l : list A) : list A :=
  match l with
  | [] => [a]
  | b :: l' => if lt (key b) (key a) then b :: insert a l' else a :: b :: l'
  end.

(** Python's [sorted(l, key=key)]: a new list, ascending by key,
    comparing keys with [<] only, stable.  Each element is inserted
    behind the elements that followed it in [l] only if their keys are
    smaller. *)
Definition sorted (l : list A) : list A := fold_right insert [] l.

End Sorted.

(** [a[mask]] for a one-dimensional array [a] and a boolean array
    [mask]: the entries of [a] where [mask] is true, in order; numpy
    (as documented, and enforced since its version 1.13) raises
    [IndexError] when the two lengths differ. *)
Definition np_getitem_mask {A : Type} (a : list A) (mask : list bool)
  : M (list A) :=
  if (length mask =? length a)%nat
  then ret (map fst (filter snd (combine a mask)))
  else raise IndexError.

(** [spsd.cdist(XA, XB)], with squared entries (see [euclidean_sq]): one
    row per entry of [XA]; [np.array([])] is not two-dimensional and
    [cdist] raises [ValueError] on it. *)
Definition cdist (XA XB : list (Z * Z)) : M (list (list Z)) :=
  match XA with
  | [] => raise ValueError
  | _ => ret (map (fun a => map (fun b => Feature.euclidean_sq a b) XB) XA)
  end.

(** [m[:,0]] on a matrix with at least one column. *)
Definition column0 (m : list (list Z)) : list Z := map (fun row => nth 0 row 0) m.

(** ** class FeatureSet *)

Module FeatureSet.

(** A FeatureSet is a Python list of features. *)
Definition t : Type := list Feature.t.

Definition x (self : t) : list Z := map Feature.x self.
Definition y (self : t) : list Z := map Feature.y self.

Definition coordinates (self : t) : list (Z * Z) :=
  map (fun f => (Feature.x f, Feature.y f)) self.

Definition area (self : t) : list num := map Feature.area self.

Definition sortArea (self : t) : t := sorted ltb Feature.area self.

Definition distanceFrom (self : t) (point : Z * Z) : M (list Z) :=
  point <-
    (if (fst point =? -1) || ((snd point =? -1) && negb (length self =? 0)%nat)
     then match self with
          | [] => raise IndexError
          | f :: _ => ret (size (Feature.image f))
          end
     else ret point) ;;
  d <- cdist (coordinates self) [point] ;;
  ret (column0 d).

Definition sortDistance (self : t) (point : Z * Z) : t :=
  sorted Z.ltb (fun f => Feature.distanceFrom f point) self.

Definition filter (self : t) (filterarray : list bool) : M t :=
  np_getitem_mask self filterarray.

Definition image (self : t) : option Image :=
  match self with
  | [] => None
  | f :: _ => Some (Feature.image f)
  end.

Definition width (self : t) : list num := map Feature.width self.
Definition height (self : t) : list num := map Feature.height self.

(** The image setter: [for f in self: f.image = i]. *)
Definition set_image (self : t) (i : Image) : t :=
  map (fun f => Feature.set_image f i) self.

(** The truth value of what a directional predicate returns: [None] is
    false. *)
Definition truthy (r : option bool) : bool :=
  match r with
  | Some b => b
  | None => false
  end.

(** [fs = FeatureSet(); for f in self: if test(f, region): fs.append(f);
    return fs].  The call of [test] may fill the extents cache of [f]
    and of a region that is a feature, so the elements and the region
    are returned as the loop leaves them; an exception leaves the loop
    at once.  The region is an object of its own, not an element of
    [self]. *)
Fixpoint select
         (test : Feature.t -> Feature.pyobj -> Feature.t * Feature.pyobj * M bool)
         (self : t) (region : Feature.pyobj) : t * Feature.pyobj * M t :=
  match self with
  | [] => ([], region, ret [])
  | f :: rest =>
      let '(f, region, m) := test f region in
      match m with
      | (w, Raise e) => (f :: rest, region, (w, Raise e))
      | (w, Ret b) =>
          let '(rest, region, m') := select test rest region in
          (f :: rest, region,
           (w, Ret tt) ;;; fs <- m' ;; ret (if b then f :: fs else fs))
      end
  end.

Definition inside (self : t) (region : Feature.pyobj) : t * Feature.pyobj * M t :=
  select (fun f region =>
            let '(f, m) := Feature.isContainedWithin f region in (f, region, m))
         self region.

Definition outside (self : t) (region : Feature.pyobj) : t * Feature.pyobj * M t :=
  select (fun f region =>
            let '(f, m) := Feature.isNotContainedWithin f region in (f, region, m))
         self region.

Definition overlaps (self : t) (region : Feature.pyobj) : t * Feature.pyobj * M t :=
  select (fun f region =>
            let '(f, m) := Feature.overlaps f region in (f, region, m))
         self region.

Definition above (self : t) (region : Feature.pyobj) : t * Feature.pyobj * M t :=
  select (fun f region =>
            let '(f, region, m) := Feature.above f region in
            (f, region, r <- m ;; ret (truthy r)))
         self region.

Definition below (self : t) (region : Feature.pyobj) : t * Feature.pyobj * M t :=
  select (fun f region =>
            let '(f, region, m) := Feature.below f region in
            (f, region, r <- m ;; ret (truthy r)))
         self region.

Definition left (self : t) (region : Feature.pyobj) : t * Feature.pyobj * M t :=
  select (fun f region =>
            let '(f, region, m) := Feature.left f region in
            (f, region, r <- m ;; ret (truthy r)))
         self region.

Definition right (self : t) (region : Feature.pyobj) : t * Feature.pyobj * M t :=
  select (fun f region =>
            let '(f, region, m) := Feature.right f region in
            (f, region, r <- m ;; ret (truthy r)))
         self region.

End FeatureSet.

(** ** Vocabulary of the statements *)

Import Feature.

(** The square of the point-in-polygon examples. *)
Definition square10 : list coord := map pt [(0, 0); (0, 10); (10, 10); (10, 0)].

(** A feature as a detector leaves it: constructed, then given its
    boundary points; no accessor has been called on it. *)
Definition detected (i : Image) (at_x at_y : Z) (pts : list (Z * Z)) : Feature.t :=
  set_points (__init__ i at_x at_y) pts.

(** The bounding polygon that [pts] determine, in the order top left,
    bottom left, bottom right, top right. *)
Definition corners_of (pts : list (Z * Z)) : list coord :=
  let '(maxX, maxY, minX, minY) := scan_extents pts in
  [(minX, minY); (minX, maxY); (maxX, maxY); (maxX, minY)].

(** The corner [p] is strictly inside the circle of centre [(cx, cy)]
    and radius [r]. *)
Definition strictly_inside_circle (cx cy r : Z) (p : coord) : Prop :=
  ltb (sqdist cx cy p) (Fin (r * r)) = true.

(** The corner [p] is farther than [r] from [(cx, cy)]. *)
Definition outside_circle (cx cy r : Z) (p : coord) : Prop :=
  gtb (sqdist cx cy p) (Fin (r * r)) = true.

(** The corner [p] lies within distance [r] of [(cx, cy)], for [0 <= r]. *)
Definition within_radius (cx cy r : Z) (p : coord) : Prop :=
  leb (sqdist cx cy p) (Fin (r * r)) = true.

(** The integer behind a finite number. *)
Definition to_Z (n : num) : Z :=
  match n with Fin z => z | _ => 0 end.

(** Neither coordinate of [p] is nan. *)
Definition no_nan (p : coord) : Prop := fst p <> NaN /\ snd p <> NaN.

(** [other] is a box descriptor [(x, y, w, h)]. *)
Definition is_box (other : pyobj) : bool :=
  match other with
  | OTuple [_; _; _; _] => true
  | _ => false
  end.

(** The entries of [a] at the indices where [mask] is true, by
    increasing index. *)
Definition selected {A : Type} (d : A) (a : list A) (mask : list bool) : list A :=
  map (fun i => nth i a d)
      (filter (fun i => nth i mask false) (seq 0 (length a))).

(** Sample data: an image, the square feature of side 4 fresh from the
    detector and after a first extent query, a feature at the origin,
    and features of width [w] and height 1. *)
Definition image100 : Image := mkImage (100, 100).

Definition square4 : Feature.t :=
  detected image100 2 2 [(0, 0); (0, 4); (4, 4); (4, 0)].

Definition square4_queried : Feature.t := _updateExtents square4.

Definition origin_feature : Feature.t := __init__ image100 0 0.

Definition strip (w : Z) : Feature.t := detected image100 0 0 [(0, 0); (w, 1)].

(** The extents cache and the [boundingBox] attribute go together:
    either nothing is cached and the attribute is still the method, or
    the four extents are cached and the attribute is the list of the
    four corners they give. *)
Definition cache_consistent (F : Feature.t) : Prop :=
  (mMaxX F = None /\ mMaxY F = None /\ mMinX F = None /\ mMinY F = None
   /\ boundingBox F = BoundMethod)
  \/ (exists maxX maxY minX minY : num,
        mMaxX F = Some maxX /\ mMaxY F = Some maxY
        /\ mMinX F = Some minX /\ mMinY F = Some minY
        /\ boundingBox F
           = PointList [(minX, minY); (minX, maxY); (maxX, maxY); (maxX, minY)]).

(** The point [p] lies in the box with top left corner [(bx, by_)],
    width [bw] and height [bh], borders included. *)
Definition in_box (bx by_ bw bh : Z) (p : Z * Z) : Prop :=
  bx <= fst p <= bx + bw /\ by_ <= snd p <= by_ + bh.

(** What the point test returns on the rectangle with the corners
    [(minX, minY)] and [(maxX, maxY)], read off the two vertical edges:
    the left edge divides by [(maxY - minY) + minX], the right edge by
    [(minY - maxY) + maxX]. *)
Definition rectangle_test (minX minY maxX maxY px py : Z) : M bool :=
  if (minY <? py) && (py <=? maxY) && (px <=? maxX) then
    if px <=? minX then
      if ((maxY - minY) + minX =? 0) || ((minY - maxY) + maxX =? 0)
      then raise ZeroDivisionError
      else ret false
    else
      if (minY - maxY) + maxX =? 0
      then raise ZeroDivisionError
      else ret true
  else ret false.

(** ** The point-in-polygon primitive *)

(** The point [(15,5)] is outside the square, with no warning and no
    exception, on every call. *)
Lemma pointInsidePolygon_square_outside :
  _pointInsidePolygon (pt (15, 5)) (PointList square10) = ([], Ret false).
Proof. vm_compute. reflexivity. Qed.

(** The edge of the square from [(10,10)] to [(10,0)] straddles [y = 5];
    the divisor of [test] is [(0 - 10) + 10]. *)
Lemma edge_step_square_right_edge :
  forall counter,
    edge_step (pt (5, 5)) (pt (10, 10)) (pt (10, 0)) counter
    = ([], Raise ZeroDivisionError).
Proof. intros counter. reflexivity. Qed.

(** C1: on the square [[(0,0),(0,10),(10,10),(10,0)]] the point [(15,5)]
    is classified outside, but the call for [(5,5)] does not classify the
    point inside: it raises [ZeroDivisionError], because the divisor of
    [test] is [(p2[1]-p1[1])+p1[0]] and that is zero on the third edge. *)
Theorem pointInsidePolygon_square_center_raises :
  _pointInsidePolygon (pt (5, 5)) (PointList square10)
    = ([], Raise ZeroDivisionError)
  /\ _pointInsidePolygon (pt (15, 5)) (PointList square10) = ([], Ret false).
Proof. split; vm_compute; reflexivity. Qed.

(** C4: for every point and every list of fewer than three vertices the
    primitive emits its diagnostic, returns [False] and raises nothing. *)
Theorem pointInsidePolygon_degenerate :
  forall (point : coord) (polygon : list coord),
    (length polygon < 3)%nat ->
    _pointInsidePolygon point (PointList polygon)
    = (["feature._pointInsidePolygon - this is not a valid polygon"%string],
       Ret false).
Proof.
  intros point polygon Hlen.
  unfold _pointInsidePolygon, pointInsidePolygon_list.
  apply Nat.ltb_lt in Hlen. rewrite Hlen. reflexivity.
Qed.

Lemma pointInsidePolygon_degenerate_witness :
  _pointInsidePolygon (pt (5, 5)) (PointList (map pt [(0, 0); (0, 10)]))
  = (["feature._pointInsidePolygon - this is not a valid polygon"%string],
     Ret false).
Proof.
  apply (pointInsidePolygon_degenerate (pt (5, 5)) (map pt [(0, 0); (0, 10)])).
  simpl. lia.
Defined.

(** ** Extents *)

(** Once [_updateExtents] has run, no extent attribute is [None]. *)
Lemma updateExtents_cached :
  forall self,
    let self' := _updateExtents self in
    mMaxX self' <> None /\ mMaxY self' <> None
    /\ mMinX self' <> None /\ mMinY self' <> None.
Proof.
  intros self. unfold _updateExtents.
  destruct (mMaxX self) eqn:E1, (mMaxY self) eqn:E2,
           (mMinX self) eqn:E3, (mMinY self) eqn:E4; simpl;
    try destruct (scan_extents (points self)) as [[[a b] c] d]; simpl;
    rewrite ?E1, ?E2, ?E3, ?E4; repeat split; discriminate.
Qed.

(** The extents are computed once: a second call changes nothing. *)
Lemma updateExtents_idempotent :
  forall self, _updateExtents (_updateExtents self) = _updateExtents self.
Proof.
  intros self. unfold _updateExtents at 2 3.
  destruct (is_None (mMaxX self) || is_None (mMaxY self)
            || is_None (mMinX self) || is_None (mMinY self)) eqn:E.
  - destruct (scan_extents (points self)) as [[[a b] c] d]. reflexivity.
  - unfold _updateExtents. rewrite E. reflexivity.
Qed.

(** On a feature fresh from the detector the extents are those of its
    points and the bounding box is their bounding polygon. *)
Lemma updateExtents_detected :
  forall i at_x at_y pts,
    boundingBox (_updateExtents (detected i at_x at_y pts))
    = PointList (corners_of pts).
Proof.
  intros. unfold detected, _updateExtents, corners_of. simpl.
  destruct (scan_extents pts) as [[[a b] c] d]. reflexivity.
Qed.

(** C10: the feature with points [[(0,0),(0,4),(4,4),(4,0)]] has width 4,
    height 4, area 16, top left corner [(0,0)] and bottom right corner
    [(4,4)]. *)
Theorem square4_round_trip :
  forall (i : Image) (at_x at_y : Z),
    let F := detected i at_x at_y [(0, 0); (0, 4); (4, 4); (4, 0)] in
    width F = Fin 4
    /\ height F = Fin 4
    /\ area F = Fin 16
    /\ snd (topLeftCorner F) = (Fin 0, Fin 0)
    /\ snd (bottomRightCorner F) = (Fin 4, Fin 4).
Proof. intros i at_x at_y F. repeat split. Qed.

(** ** Directional predicates *)

(** C7: against another feature, [above] compares this feature's
    [maxY()] with the other's [minY()] by [<], [below] this [minY()] with
    the other's [maxY()] by [>], [left] this [maxX()] with the other's
    [minX()] by [<] and [right] this [minX()] with the other's [maxX()]
    by [>]; nothing is warned or raised.  This holds for every pair of
    features, those with disjoint bounding boxes among them. *)
Theorem directional_compares_extents :
  forall F G : Feature.t,
    snd (above F (OFeature G))
      = ([], Ret (Some (ltb (snd (maxY F)) (snd (minY G)))))
    /\ snd (below F (OFeature G))
      = ([], Ret (Some (gtb (snd (minY F)) (snd (maxY G)))))
    /\ snd (left F (OFeature G))
      = ([], Ret (Some (ltb (snd (maxX F)) (snd (minX G)))))
    /\ snd (right F (OFeature G))
      = ([], Ret (Some (gtb (snd (minX F)) (snd (maxX G))))).
Proof. intros F G. repeat split. Qed.

(** C8: an argument that is neither a feature, a tuple, an array nor a
    scalar makes each directional predicate emit its warning and return
    [None], which is not [False]; nothing is raised and nothing changes. *)
Theorem directional_unrecognised :
  forall (F : Feature.t) (object : pyobj),
    isinstance object TFeature = false ->
    isinstance object TTuple = false ->
    isinstance object TNdarray = false ->
    isinstance object TInt = false ->
    isinstance object TFloat = false ->
    (above F object =
       (F, object,
        (["SimpleCV did not recognize the input type to feature.above(). This method only takes another feature, an (x,y) tuple, or a ndarray type."%string],
         Ret None))
     /\ below F object =
       (F, object,
        (["SimpleCV did not recognize the input type to feature.below(). This method only takes another feature, an (x,y) tuple, or a ndarray type."%string],
         Ret None))
     /\ left F object =
       (F, object,
        (["SimpleCV did not recognize the input type to feature.left(). This method only takes another feature, an (x,y) tuple, or a ndarray type."%string],
         Ret None))
     /\ right F object =
       (F, object,
        (["SimpleCV did not recognize the input type to feature.right(). This method only takes another feature, an (x,y) tuple, or a ndarray type."%string],
         Ret None)))
    /\ @Ret (option bool) None <> Ret (Some false).
Proof.
  intros F object HF HT HA HI HFl.
  split; [| discriminate].
  destruct object; try discriminate; repeat split.
Qed.

Lemma directional_unrecognised_witness :
  snd (above square4 (OList [(0, 0); (0, 1); (1, 1)]))
  = (["SimpleCV did not recognize the input type to feature.above(). This method only takes another feature, an (x,y) tuple, or a ndarray type."%string],
     Ret None).
Proof.
  destruct (directional_unrecognised square4 (OList [(0, 0); (0, 1); (1, 1)])
              eq_refl eq_refl eq_refl eq_refl eq_refl) as [[Ha _] _].
  rewrite Ha. reflexivity.
Defined.

(** ** Width, height and area are integers *)

Lemma span_fold_Fin :
  forall (proj : Z * Z -> Z) (pts : list (Z * Z)) (hi lo : Z),
  exists hi' lo',
    fold_left (fun acc p => span_step acc (proj p)) pts (Fin hi, Fin lo)
    = (Fin hi', Fin lo').
Proof.
  intros proj pts. induction pts as [| p pts IH]; intros hi lo; simpl.
  - eauto.
  - unfold gtb. simpl.
    destruct (hi <? proj p), (proj p <? lo); apply IH.
Qed.

Lemma span_Fin :
  forall (proj : Z * Z -> Z) (pts : list (Z * Z)),
  exists z,
    (if (length pts <=? 0)%nat then Fin 1
     else let '(hi, lo) :=
            fold_left (fun acc p => span_step acc (proj p)) pts (NegInf, PosInf)
          in sub hi lo) = Fin z.
Proof.
  intros proj [| p pts]; simpl.
  - eauto.
  - destruct (span_fold_Fin proj pts (proj p) (proj p)) as (hi & lo & E).
    rewrite E. simpl. eauto.
Qed.

Lemma width_Fin : forall f, exists z, width f = Fin z.
Proof. intros f. apply (span_Fin fst). Qed.

Lemma height_Fin : forall f, exists z, height f = Fin z.
Proof. intros f. apply (span_Fin snd). Qed.

Lemma area_Fin : forall f, area f = Fin (to_Z (area f)).
Proof.
  intros f. unfold area.
  destruct (width_Fin f) as [w ->], (height_Fin f) as [h ->]. reflexivity.
Qed.

(** ** Sorting *)

Section SortedFacts.

Context {A : Type} (key : A -> Z).

Local Abbreviation ins := (insert Z.ltb key).
Local Abbreviation srt := (sorted Z.ltb key).

Lemma insert_perm : forall a l, Permutation (a :: l) (ins a l).
Proof.
  intros a l. induction l as [| b l IH]; simpl.
  - apply Permutation_refl.
  - destruct (key b <? key a).
    + eapply perm_trans; [apply perm_swap |].
      apply perm_skip, IH.
    + apply Permutation_refl.
Qed.

Lemma sorted_perm : forall l, Permutation l (srt l).
Proof.
  induction l as [| a l IH]; simpl.
  - apply perm_nil.
  - eapply perm_trans; [apply perm_skip, IH | apply insert_perm].
Qed.

Let le_key (a b : A) : Prop := key a <= key b.

Lemma insert_ascending :
  forall a l, StronglySorted le_key l -> StronglySorted le_key (ins a l).
Proof.
  intros a l Hs. induction Hs as [| b l Hs IH Hb]; simpl.
  - repeat constructor.
  - destruct (key b <? key a) eqn:E.
    + apply Z.ltb_lt in E. constructor; [exact IH |].
      eapply Permutation_Forall; [apply insert_perm |].
      constructor; [unfold le_key; lia | exact Hb].
    + apply Z.ltb_ge in E. constructor.
      * constructor; assumption.
      * constructor; [exact E |].
        eapply Forall_impl; [| exact Hb].
        intros c Hc. unfold le_key in *. lia.
Qed.

Lemma sorted_ascending : forall l, StronglySorted le_key (srt l).
Proof.
  induction l as [| a l IH]; simpl.
  - constructor.
  - apply insert_ascending, IH.
Qed.

(** Insertion never moves an element past one with the same key. *)
Lemma insert_stable :
  forall k a l,
    filter (fun f => key f =? k) (ins a l)
    = filter (fun f => key f =? k) (a :: l).
Proof.
  intros k a l. induction l as [| b l IH]; [reflexivity |].
  simpl. destruct (key b <? key a) eqn:E; [| reflexivity].
  simpl. rewrite IH. simpl.
  destruct (key a =? k) eqn:Ea, (key b =? k) eqn:Eb; try reflexivity.
  apply Z.eqb_eq in Ea, Eb. apply Z.ltb_lt in E. lia.
Qed.

Lemma sorted_stable :
  forall k l,
    filter (fun f => key f =? k) (srt l) = filter (fun f => key f =? k) l.
Proof.
  intros k l. induction l as [| a l IH]; [reflexivity |].
  simpl sorted. rewrite insert_stable. simpl. rewrite IH. reflexivity.
Qed.

End SortedFacts.

(** Sorting on keys that are all integers is sorting on the integers. *)
Lemma sorted_num_keys :
  forall {A : Type} (key : A -> num) (l : list A),
    (forall a, key a = Fin (to_Z (key a))) ->
    sorted ltb key l = sorted Z.ltb (fun a => to_Z (key a)) l.
Proof.
  intros A key l Hkey.
  assert (Hins : forall a m,
             insert ltb key a m = insert Z.ltb (fun a => to_Z (key a)) a m).
  { intros a m. induction m as [| b m IH]; [reflexivity |].
    simpl. rewrite IH, (Hkey a), (Hkey b). reflexivity. }
  induction l as [| a l IH]; [reflexivity |].
  simpl. rewrite IH. apply Hins.
Qed.

(** The keys of the sorted list are the sorted keys. *)
Lemma map_key_sorted :
  forall {A K : Type} (lt : K -> K -> bool) (key : A -> K) (l : list A),
    map key (sorted lt key l) = sorted lt (fun k => k) (map key l).
Proof.
  intros A K lt key l.
  assert (Hins : forall a m,
             map key (insert lt key a m)
             = insert lt (fun k => k) (key a) (map key m)).
  { intros a m. induction m as [| b m IH]; [reflexivity |].
    simpl. destruct (lt (key b) (key a)); simpl; [rewrite IH |]; reflexivity. }
  induction l as [| a l IH]; [reflexivity |].
  simpl. rewrite Hins, IH. reflexivity.
Qed.

(** C5: [sortArea] returns a list, built from the receiver without
    assigning to it, that holds the same features, ascending by [area()],
    features of equal area in the order they had in the receiver; areas
    [[30, 10, 20]] come out as [[10, 20, 30]]. *)
Theorem sortArea_ascending_stable :
  forall fs : FeatureSet.t,
    Permutation fs (FeatureSet.sortArea fs)
    /\ StronglySorted (fun f g => leb (area f) (area g) = true)
                      (FeatureSet.sortArea fs)
    /\ (forall k : Z,
          filter (fun f => eqb (area f) (Fin k)) (FeatureSet.sortArea fs)
          = filter (fun f => eqb (area f) (Fin k)) fs)
    /\ (FeatureSet.area fs = [Fin 30; Fin 10; Fin 20] ->
        FeatureSet.area (FeatureSet.sortArea fs) = [Fin 10; Fin 20; Fin 30]).
Proof.
  intros fs. unfold FeatureSet.sortArea, FeatureSet.area.
  repeat split.
  - rewrite (sorted_num_keys area fs area_Fin). apply sorted_perm.
  - rewrite (sorted_num_keys area fs area_Fin).
    eapply StronglySorted_ind with
      (P := StronglySorted (fun f g => leb (area f) (area g) = true));
      [constructor | | apply (sorted_ascending (fun f => to_Z (area f)))].
    intros a l _ IH Ha. constructor; [exact IH |].
    eapply Forall_impl; [| exact Ha].
    intros b Hb. simpl in Hb.
    rewrite (area_Fin a), (area_Fin b). simpl. apply Z.leb_le, Hb.
  - intros k. rewrite (sorted_num_keys area fs area_Fin).
    rewrite (filter_ext (fun f => eqb (area f) (Fin k))
                        (fun f => to_Z (area f) =? k)).
    + symmetry.
      rewrite (filter_ext (fun f => eqb (area f) (Fin k))
                          (fun f => to_Z (area f) =? k)).
      * symmetry. apply (sorted_stable (fun f => to_Z (area f))).
      * intros f. rewrite (area_Fin f). reflexivity.
    + intros f. rewrite (area_Fin f). reflexivity.
  - intros Hareas. rewrite map_key_sorted, Hareas. reflexivity.
Qed.

Lemma sortArea_ascending_stable_witness :
  FeatureSet.area (FeatureSet.sortArea [strip 30; strip 10; strip 20])
  = [Fin 10; Fin 20; Fin 30].
Proof.
  destruct (sortArea_ascending_stable [strip 30; strip 10; strip 20])
    as (_ & _ & _ & Hex).
  apply Hex. reflexivity.
Defined.

(** ** Filtering by a mask *)

Lemma np_getitem_mask_selected :
  forall {A : Type} (d : A) (a : list A) (mask : list bool),
    length mask = length a ->
    map fst (filter snd (combine a mask)) = selected d a mask.
Proof.
  intros A d a. unfold selected.
  induction a as [| v a IH]; intros [| b mask] Hlen;
    try discriminate; [reflexivity |].
  injection Hlen as Hlen.
  cbn [length]. rewrite <- cons_seq, <- seq_shift.
  cbn [combine filter nth snd].
  rewrite filter_map_swap. cbn [nth].
  destruct b; cbn [map fst nth]; rewrite map_map; cbn [nth];
    rewrite (IH mask Hlen); reflexivity.
Qed.

(** C6: with a mask as long as the collection, [filter] returns the
    elements whose mask entry is true, in their order (mask
    [[true,false,true]] keeps the first and the third of three); with a
    mask of another length it raises. *)
Theorem filter_mask :
  forall (d : Feature.t) (fs : FeatureSet.t) (mask : list bool),
    (length mask = length fs ->
     FeatureSet.filter fs mask = ([], Ret (selected d fs mask)))
    /\ (length mask <> length fs ->
        FeatureSet.filter fs mask = ([], Raise IndexError))
    /\ (forall a b c : Feature.t,
          FeatureSet.filter [a; b; c] [true; false; true] = ([], Ret [a; c])).
Proof.
  intros d fs mask. unfold FeatureSet.filter, np_getitem_mask.
  repeat split.
  - intros Hlen. rewrite (proj2 (Nat.eqb_eq _ _) Hlen).
    unfold ret. rewrite (np_getitem_mask_selected d fs mask Hlen). reflexivity.
  - intros Hlen. rewrite (proj2 (Nat.eqb_neq _ _) Hlen). reflexivity.
Qed.

Lemma filter_mask_witness :
  FeatureSet.filter [strip 30; strip 10; strip 20] [true; false; true]
    = ([], Ret [strip 30; strip 20])
  /\ FeatureSet.filter [strip 30; strip 10; strip 20] [true; false]
    = ([], Raise IndexError).
Proof.
  destruct (filter_mask origin_feature [strip 30; strip 10; strip 20]
              [true; false; true]) as (Hsame & _ & _).
  destruct (filter_mask origin_feature [strip 30; strip 10; strip 20]
              [true; false]) as (_ & Hdiff & _).
  split.
  - rewrite Hsame; reflexivity.
  - apply Hdiff. simpl. lia.
Defined.

(** ** Distances *)

(** Called without a point, [FeatureSet.distanceFrom] measures every
    element from [self[0].image.size()]. *)
Lemma FeatureSet_distanceFrom_default :
  forall (f : Feature.t) (fs : FeatureSet.t),
    FeatureSet.distanceFrom (f :: fs) (-1, -1)
    = ([], Ret (map (fun g => euclidean_sq (Feature.x g, Feature.y g)
                                           (size (Feature.image f)))
                    (f :: fs))).
Proof.
  intros f fs. unfold FeatureSet.distanceFrom, cdist, column0.
  cbn -[euclidean_sq]. unfold FeatureSet.coordinates.
  rewrite !map_map. reflexivity.
Qed.

(** C9: on the collection of one feature at [(0,0)] of an image of size
    [(100,100)], [FeatureSet.distanceFrom()] measures from [(100,100)],
    the size of the image, where [Feature.distanceFrom()] measures from
    its centre [(50,50)]: squared distances 20000 and 5000. *)
Theorem FeatureSet_distanceFrom_default_from_size :
  FeatureSet.distanceFrom [origin_feature] (-1, -1)
    = ([], Ret [euclidean_sq (0, 0) (100, 100)])
  /\ Feature.distanceFrom origin_feature (-1, -1) = euclidean_sq (50, 50) (0, 0)
  /\ euclidean_sq (0, 0) (100, 100) = 20000
  /\ euclidean_sq (50, 50) (0, 0) = 5000.
Proof. repeat split. Qed.

(** ** Circles *)

Lemma forallb_negb_Forall :
  forall {A : Type} (test : A -> bool) (l : list A),
    forallb (fun a => negb (test a)) l = true
    <-> Forall (fun a => ~ test a = true) l.
Proof.
  intros A test l. rewrite forallb_forall, Forall_forall.
  split; intros H a Hin; specialize (H a Hin);
    destruct (test a); simpl in *; congruence.
Qed.

(** The squared distance from a centre to a point without nan is a
    number, possibly infinite. *)
Lemma sqdist_no_nan :
  forall cx cy p, no_nan p -> sqdist cx cy p <> NaN.
Proof.
  intros cx cy [[| u | |] [| v | |]] [Hx Hy]; simpl in *;
    try congruence; unfold sqdist; simpl; discriminate.
Qed.

(** Away from nan, not being farther than [r] is being within [r]. *)
Lemma within_radius_not_outside :
  forall cx cy r p,
    no_nan p -> (within_radius cx cy r p <-> ~ outside_circle cx cy r p).
Proof.
  intros cx cy r p Hp. unfold within_radius, outside_circle, gtb.
  pose proof (sqdist_no_nan cx cy p Hp) as Hd.
  destruct (sqdist cx cy p) as [| d | |]; simpl; try congruence.
  - split; [discriminate | reflexivity].
  - rewrite Z.leb_le, Z.ltb_lt. lia.
  - split; [discriminate | intros H; exfalso; apply H; reflexivity].
Qed.

(** The bounding polygon of a list of points has no nan corner. *)
Lemma scan_extents_no_nan :
  forall pts,
    let '(maxX, maxY, minX, minY) := scan_extents pts in
    maxX <> NaN /\ maxY <> NaN /\ minX <> NaN /\ minY <> NaN.
Proof.
  intros pts. unfold scan_extents.
  assert (H : forall acc,
             (let '(a, b, c, d) := acc in
              a <> NaN /\ b <> NaN /\ c <> NaN /\ d <> NaN) ->
             let '(a, b, c, d) := fold_left extent_step pts acc in
             a <> NaN /\ b <> NaN /\ c <> NaN /\ d <> NaN).
  { induction pts as [| p pts IH]; intros [[[a b] c] d] Hacc; [exact Hacc |].
    cbn [fold_left]. apply IH. unfold extent_step.
    destruct Hacc as (Ha & Hb & Hc & Hd).
    destruct (gtb (Fin (fst p)) a), (ltb (Fin (fst p)) c),
             (gtb (Fin (snd p)) b), (ltb (Fin (snd p)) d);
      repeat split; solve [assumption | discriminate]. }
  apply H. repeat split; discriminate.
Qed.

Lemma corners_of_no_nan : forall pts, Forall no_nan (corners_of pts).
Proof.
  intros pts. unfold corners_of.
  pose proof (scan_extents_no_nan pts) as H.
  destruct (scan_extents pts) as [[[a b] c] d].
  destruct H as (Ha & Hb & Hc & Hd).
  repeat constructor; assumption.
Qed.

(** C2, as the code has it: on a feature whose [boundingBox] attribute
    holds its corners, [contains((x,y,r))] returns true if and only if no
    corner lies strictly inside the circle (squared distance to the
    centre below [r*r]); the test that every corner is within distance
    [r] of the centre is the one [isContainedWithin((x,y,r))] makes.
    Neither call warns, raises or changes the feature. *)
Theorem contains_circle_no_corner_inside :
  forall (F : Feature.t) (cx cy r : Z) (l : list coord),
    boundingBox F = PointList l ->
    (exists b : bool,
        contains F (OTuple [cx; cy; r]) = (F, ([], Ret b))
        /\ (b = true <-> Forall (fun p => ~ strictly_inside_circle cx cy r p) l))
    /\ (exists b : bool,
           isContainedWithin F (OTuple [cx; cy; r]) = (F, ([], Ret b))
           /\ (b = true <-> Forall (fun p => ~ outside_circle cx cy r p) l)
           /\ (Forall no_nan l ->
               (b = true <-> Forall (within_radius cx cy r) l))).
Proof.
  intros F cx cy r l Hbb. split.
  - eexists. split.
    + unfold contains. rewrite Hbb. reflexivity.
    + apply (forallb_negb_Forall
               (fun p => ltb (sqdist cx cy p) (Fin (r * r)))).
  - eexists. split; [| split].
    + unfold isContainedWithin. rewrite Hbb. reflexivity.
    + apply (forallb_negb_Forall
               (fun p => gtb (sqdist cx cy p) (Fin (r * r)))).
    + intros Hnan.
      rewrite (forallb_negb_Forall
                 (fun p => gtb (sqdist cx cy p) (Fin (r * r)))).
      rewrite !Forall_forall in *.
      split; intros H p Hin; specialize (H p Hin);
        apply (within_radius_not_outside cx cy r p (Hnan p Hin)); exact H.
Qed.

Lemma contains_circle_no_corner_inside_witness :
  contains square4_queried (OTuple [2; 2; 1]) = (square4_queried, ([], Ret true))
  /\ isContainedWithin square4_queried (OTuple [2; 2; 10])
     = (square4_queried, ([], Ret true)).
Proof.
  destruct (contains_circle_no_corner_inside square4_queried 2 2 1
              (map pt [(0, 0); (0, 4); (4, 4); (4, 0)]) eq_refl)
    as [(b & Hc & Hb) _].
  destruct (contains_circle_no_corner_inside square4_queried 2 2 10
              (map pt [(0, 0); (0, 4); (4, 4); (4, 0)]) eq_refl)
    as [_ (b' & Hc' & Hb' & _)].
  split.
  - rewrite Hc. replace b with true; [reflexivity |].
    symmetry. apply Hb. repeat constructor; discriminate.
  - rewrite Hc'. replace b' with true; [reflexivity |].
    symmetry. apply Hb'. repeat constructor; discriminate.
Defined.

(** The square of side 4 and the circle of centre [(2,2)] and radius 10:
    every corner of the bounding box is within distance 10 of the centre,
    and [contains] returns false. *)
Lemma contains_circle_all_corners_within_false :
  boundingBox square4_queried = PointList (map pt [(0, 0); (0, 4); (4, 4); (4, 0)])
  /\ ~ (snd (snd (contains square4_queried (OTuple [2; 2; 10]))) = Ret true
        <-> Forall (within_radius 2 2 10)
                   (map pt [(0, 0); (0, 4); (4, 4); (4, 0)])).
Proof.
  split; [reflexivity |].
  intros [_ H].
  assert (Hall : Forall (within_radius 2 2 10)
                        (map pt [(0, 0); (0, 4); (4, 4); (4, 0)]))
    by (repeat constructor).
  specialize (H Hall). discriminate H.
Qed.

(** ** The bounding box attribute before the first extent query *)

(** Case analysis on a region descriptor, tuples and arrays opened up to
    five entries. *)
Ltac descriptor_cases other :=
  destruct other as
    [ ?g
    | [| ?a [| ?b [| ?c [| ?d [| ?e ?elems]]]]]
    | [| ?a [| ?b [| ?c ?elems]]]
    | ?n | ?v | ?ps | ?s | ].

(** C3: on a feature on which no extent or corner accessor has been
    called, the [boundingBox] attribute is not the corner list of the
    points; [_updateExtents] is what stores that list.  [contains],
    [overlaps] and [isContainedWithin] take [bounds] from the attribute
    as it is: outside the box branch (which asks the extent accessors
    instead) and the Feature branch of [isContainedWithin] they leave
    the feature as it was and return what they would return for any
    other list of points; a point query, for one, raises.  After
    [_updateExtents] the same query runs on the bounding polygon of the
    points. *)
Theorem predicates_read_boundingBox_attribute :
  forall (i : Image) (at_x at_y : Z) (pts : list (Z * Z)),
    let F := detected i at_x at_y pts in
    boundingBox F = BoundMethod
    /\ boundingBox F <> PointList (corners_of pts)
    /\ boundingBox (_updateExtents F) = PointList (corners_of pts)
    /\ (forall (other : pyobj) (pts' : list (Z * Z)),
          is_box other = false ->
          contains F other
          = (F, snd (contains (detected i at_x at_y pts') other)))
    /\ (forall (other : pyobj) (pts' : list (Z * Z)),
          overlaps F other
          = (F, snd (overlaps (detected i at_x at_y pts') other)))
    /\ (forall (other : pyobj) (pts' : list (Z * Z)),
          is_box other = false ->
          isinstance other TFeature = false ->
          isContainedWithin F other
          = (F, snd (isContainedWithin (detected i at_x at_y pts') other)))
    /\ (forall a b : Z,
          contains F (OTuple [a; b]) = (F, ([], Raise TypeError))
          /\ snd (contains (_updateExtents F) (OTuple [a; b]))
             = _pointInsidePolygon (Fin a, Fin b) (PointList (corners_of pts))).
Proof.
  intros i at_x at_y pts F.
  split; [reflexivity |].
  split; [discriminate |].
  split; [apply updateExtents_detected |].
  split; [| split; [| split]].
  - intros other pts' Hbox.
    descriptor_cases other; try discriminate Hbox; try reflexivity.
    unfold contains. destruct (4 <=? length ps)%nat; reflexivity.
  - intros other pts'.
    descriptor_cases other; try reflexivity.
    unfold overlaps. destruct (3 <=? length ps)%nat; reflexivity.
  - intros other pts' Hbox Hfeat.
    descriptor_cases other; try discriminate Hbox; try discriminate Hfeat;
      try reflexivity.
    unfold isContainedWithin. destruct (2 <? length ps)%nat; reflexivity.
  - intros a b. split; [reflexivity |].
    subst F. unfold contains.
    rewrite (updateExtents_detected i at_x at_y pts). reflexivity.
Qed.

Lemma predicates_read_boundingBox_attribute_witness :
  contains square4 (OTuple [2; 2; 1]) = (square4, ([], Raise TypeError))
  /\ isContainedWithin square4 (OList [(0, 0); (0, 9); (9, 9)])
     = (square4, ([], Raise TypeError)).
Proof.
  destruct (predicates_read_boundingBox_attribute image100 2 2
              [(0, 0); (0, 4); (4, 4); (4, 0)])
    as (_ & _ & _ & Hc & _ & Hw & _).
  unfold square4. split.
  - rewrite (Hc (OTuple [2; 2; 1]) [] eq_refl). reflexivity.
  - rewrite (Hw (OList [(0, 0); (0, 9); (9, 9)]) [] eq_refl eq_refl).
    reflexivity.
Defined.

(** ** The extents of a detected feature are those of its points *)

Lemma fold_extent_step_Fin :
  forall (pts : list (Z * Z)) (a b c d : Z),
    fold_left extent_step pts (Fin a, Fin b, Fin c, Fin d)
    = (Fin (fold_left (fun m q => Z.max m (fst q)) pts a),
       Fin (fold_left (fun m q => Z.max m (snd q)) pts b),
       Fin (fold_left (fun m q => Z.min m (fst q)) pts c),
       Fin (fold_left (fun m q => Z.min m (snd q)) pts d)).
Proof.
  induction pts as [| p pts IH]; intros a b c d; [reflexivity |].
  cbn [fold_left]. unfold extent_step at 2. unfold gtb. cbn [ltb].
  destruct (Z.ltb_spec a (fst p)), (Z.ltb_spec b (snd p)),
           (Z.ltb_spec (fst p) c), (Z.ltb_spec (snd p) d);
    rewrite IH; repeat f_equal; lia.
Qed.

Lemma scan_extents_cons :
  forall (p : Z * Z) (pts : list (Z * Z)),
    scan_extents (p :: pts)
    = (Fin (fold_left (fun m q => Z.max m (fst q)) pts (fst p)),
       Fin (fold_left (fun m q => Z.max m (snd q)) pts (snd p)),
       Fin (fold_left (fun m q => Z.min m (fst q)) pts (fst p)),
       Fin (fold_left (fun m q => Z.min m (snd q)) pts (snd p))).
Proof. intros p pts. unfold scan_extents. apply fold_extent_step_Fin. Qed.

Lemma fold_max_lt :
  forall (proj : Z * Z -> Z) (pts : list (Z * Z)) (a m : Z),
    fold_left (fun m q => Z.max m (proj q)) pts a < m
    <-> Forall (fun q => proj q < m) pts /\ a < m.
Proof.
  intros proj pts. induction pts as [| p pts IH]; intros a m; cbn [fold_left].
  - split; [intros H; split; [constructor | exact H] | intros [_ H]; exact H].
  - rewrite IH. split.
    + intros [Hall Hm]. split; [constructor; [lia | exact Hall] | lia].
    + intros [Hall Hm]. inversion Hall; subst. split; [assumption | lia].
Qed.

Lemma fold_min_gt :
  forall (proj : Z * Z -> Z) (pts : list (Z * Z)) (a m : Z),
    m < fold_left (fun m q => Z.min m (proj q)) pts a
    <-> Forall (fun q => m < proj q) pts /\ m < a.
Proof.
  intros proj pts. induction pts as [| p pts IH]; intros a m; cbn [fold_left].
  - split; [intros H; split; [constructor | exact H] | intros [_ H]; exact H].
  - rewrite IH. split.
    + intros [Hall Hm]. split; [constructor; [lia | exact Hall] | lia].
    + intros [Hall Hm]. inversion Hall; subst. split; [assumption | lia].
Qed.

(** The maximum of one coordinate over [ptsF] is below its minimum over
    [ptsG] exactly when every point of [ptsF] is below every point of
    [ptsG] in that coordinate. *)
Lemma max_lt_min_pointwise :
  forall (proj : Z * Z -> Z) (p : Z * Z) (ptsF : list (Z * Z))
         (q : Z * Z) (ptsG : list (Z * Z)),
    fold_left (fun m r => Z.max m (proj r)) ptsF (proj p)
    < fold_left (fun m r => Z.min m (proj r)) ptsG (proj q)
    <-> (forall u v, In u (p :: ptsF) -> In v (q :: ptsG) -> proj u < proj v).
Proof.
  intros proj p ptsF q ptsG. rewrite fold_max_lt. split.
  - intros [Hall Hp] u v Hu Hv.
    assert (Hu' : proj u < fold_left (fun m r => Z.min m (proj r)) ptsG (proj q)).
    { destruct Hu as [<- | Hu]; [exact Hp |].
      rewrite Forall_forall in Hall. apply Hall, Hu. }
    apply fold_min_gt in Hu'. destruct Hu' as [Hall' Hq].
    destruct Hv as [<- | Hv]; [exact Hq |].
    rewrite Forall_forall in Hall'. apply Hall', Hv.
  - intros H.
    assert (Hone : forall u, In u (p :: ptsF) ->
              proj u < fold_left (fun m r => Z.min m (proj r)) ptsG (proj q)).
    { intros u Hu. apply fold_min_gt. split.
      - apply Forall_forall. intros v Hv. apply H; [exact Hu | right; exact Hv].
      - apply H; [exact Hu | left; reflexivity]. }
    split.
    + apply Forall_forall. intros u Hu. apply Hone. right. exact Hu.
    + apply Hone. left. reflexivity.
Qed.

(** X27: for two features fresh from the detector, each with at least one
    point, the directional predicates say what the points say: [above]
    holds exactly when every point of the first has a smaller [y] than
    every point of the second, and so on. *)
Theorem directional_detected_points :
  forall (i j : Image) (fx fy gx gy : Z) (ptsF ptsG : list (Z * Z)),
    ptsF <> [] -> ptsG <> [] ->
    let F := detected i fx fy ptsF in
    let G := detected j gx gy ptsG in
    (snd (above F (OFeature G)) = ([], Ret (Some true))
     <-> forall u v, In u ptsF -> In v ptsG -> snd u < snd v)
    /\ (snd (below F (OFeature G)) = ([], Ret (Some true))
        <-> forall u v, In u ptsF -> In v ptsG -> snd v < snd u)
    /\ (snd (left F (OFeature G)) = ([], Ret (Some true))
        <-> forall u v, In u ptsF -> In v ptsG -> fst u < fst v)
    /\ (snd (right F (OFeature G)) = ([], Ret (Some true))
        <-> forall u v, In u ptsF -> In v ptsG -> fst v < fst u).
Proof.
  intros i j fx fy gx gy [| p ptsF] [| q ptsG] HF HG F G;
    try congruence.
  assert (Hret : forall b : bool,
             (([] : list string), Ret (Some b)) = ([], Ret (Some true))
             <-> b = true).
  { intros b. split; [intros H; injection H; auto | intros ->; reflexivity]. }
  subst F G.
  unfold above, below, left, right, maxY, minY, maxX, minX,
    detected, _updateExtents, set_points, __init__.
  cbn [mMaxX mMaxY mMinX mMinY is_None orb points fst snd].
  rewrite !scan_extents_cons.
  cbn [mMaxX mMaxY mMinX mMinY cached fst snd ret].
  unfold gtb, ret. cbn [ltb].
  rewrite !Hret, !Z.ltb_lt.
  repeat split.
  - apply (max_lt_min_pointwise snd p ptsF q ptsG).
  - apply (max_lt_min_pointwise snd p ptsF q ptsG).
  - intros H u v Hu Hv.
    apply (proj1 (max_lt_min_pointwise snd q ptsG p ptsF) H v u Hv Hu).
  - intros H. apply (max_lt_min_pointwise snd q ptsG p ptsF).
    intros u v Hu Hv. apply H; assumption.
  - apply (max_lt_min_pointwise fst p ptsF q ptsG).
  - apply (max_lt_min_pointwise fst p ptsF q ptsG).
  - intros H u v Hu Hv.
    apply (proj1 (max_lt_min_pointwise fst q ptsG p ptsF) H v u Hv Hu).
  - intros H. apply (max_lt_min_pointwise fst q ptsG p ptsF).
    intros u v Hu Hv. apply H; assumption.
Qed.

(** ** More on the extents cache *)

(** The four extents of a feature fresh from the detector with at least
    one point. *)
Lemma accessors_detected :
  forall (i : Image) (at_x at_y : Z) (p : Z * Z) (pts : list (Z * Z)),
    snd (maxX (detected i at_x at_y (p :: pts)))
      = Fin (fold_left (fun m q => Z.max m (fst q)) pts (fst p))
    /\ snd (maxY (detected i at_x at_y (p :: pts)))
      = Fin (fold_left (fun m q => Z.max m (snd q)) pts (snd p))
    /\ snd (minX (detected i at_x at_y (p :: pts)))
      = Fin (fold_left (fun m q => Z.min m (fst q)) pts (fst p))
    /\ snd (minY (detected i at_x at_y (p :: pts)))
      = Fin (fold_left (fun m q => Z.min m (snd q)) pts (snd p)).
Proof.
  intros i at_x at_y p pts.
  unfold maxX, maxY, minX, minY, detected, _updateExtents, set_points, __init__.
  cbn [mMaxX mMaxY mMinX mMinY is_None orb points fst snd].
  rewrite scan_extents_cons. repeat split.
Qed.

Lemma fold_max_bounds :
  forall (proj : Z * Z -> Z) (pts : list (Z * Z)) (a : Z),
    let M := fold_left (fun m q => Z.max m (proj q)) pts a in
    a <= M /\ Forall (fun q => proj q <= M) pts
    /\ (M = a \/ exists q, In q pts /\ proj q = M).
Proof.
  intros proj pts. induction pts as [| p pts IH]; intros a; cbn [fold_left].
  - repeat split; [lia | constructor | left; reflexivity].
  - destruct (IH (Z.max a (proj p))) as (Hle & Hall & Hatt).
    repeat split.
    + lia.
    + constructor; [lia | exact Hall].
    + destruct Hatt as [Heq | (q & Hq & Hm)].
      * destruct (Z.max_spec a (proj p)) as [[_ Hmax] | [_ Hmax]].
        -- right. exists p. split; [left; reflexivity | lia].
        -- left. lia.
      * right. exists q. split; [right; exact Hq | exact Hm].
Qed.

Lemma fold_min_bounds :
  forall (proj : Z * Z -> Z) (pts : list (Z * Z)) (a : Z),
    let M := fold_left (fun m q => Z.min m (proj q)) pts a in
    M <= a /\ Forall (fun q => M <= proj q) pts
    /\ (M = a \/ exists q, In q pts /\ proj q = M).
Proof.
  intros proj pts. induction pts as [| p pts IH]; intros a; cbn [fold_left].
  - repeat split; [lia | constructor | left; reflexivity].
  - destruct (IH (Z.min a (proj p))) as (Hle & Hall & Hatt).
    repeat split.
    + lia.
    + constructor; [lia | exact Hall].
    + destruct Hatt as [Heq | (q & Hq & Hm)].
      * destruct (Z.min_spec a (proj p)) as [[_ Hmin] | [_ Hmin]].
        -- left. lia.
        -- right. exists p. split; [left; reflexivity | lia].
      * right. exists q. split; [right; exact Hq | exact Hm].
Qed.

(** The maximum of a coordinate over a non-empty list of points bounds
    every point and is the coordinate of one of them. *)
Lemma max_over_points :
  forall (proj : Z * Z -> Z) (p : Z * Z) (pts : list (Z * Z)),
    let M := fold_left (fun m q => Z.max m (proj q)) pts (proj p) in
    (forall q, In q (p :: pts) -> proj q <= M)
    /\ (exists q, In q (p :: pts) /\ proj q = M).
Proof.
  intros proj p pts M.
  destruct (fold_max_bounds proj pts (proj p)) as (Hle & Hall & Hatt).
  fold M in Hle, Hall, Hatt. split.
  - intros q [<- | Hq]; [exact Hle |].
    rewrite Forall_forall in Hall. apply Hall, Hq.
  - destruct Hatt as [Heq | (q & Hq & Hm)].
    + exists p. split; [left; reflexivity | symmetry; exact Heq].
    + exists q. split; [right; exact Hq | exact Hm].
Qed.

Lemma min_over_points :
  forall (proj : Z * Z -> Z) (p : Z * Z) (pts : list (Z * Z)),
    let M := fold_left (fun m q => Z.min m (proj q)) pts (proj p) in
    (forall q, In q (p :: pts) -> M <= proj q)
    /\ (exists q, In q (p :: pts) /\ proj q = M).
Proof.
  intros proj p pts M.
  destruct (fold_min_bounds proj pts (proj p)) as (Hle & Hall & Hatt).
  fold M in Hle, Hall, Hatt. split.
  - intros q [<- | Hq]; [exact Hle |].
    rewrite Forall_forall in Hall. apply Hall, Hq.
  - destruct Hatt as [Heq | (q & Hq & Hm)].
    + exists p. split; [left; reflexivity | symmetry; exact Heq].
    + exists q. split; [right; exact Hq | exact Hm].
Qed.

(** X1: the extents of a feature fresh from the detector with at least
    one point are integers, every point lies between them, and each of
    them is the coordinate of some point: the bounding box is the
    smallest upright rectangle around the points. *)
Theorem extents_tight :
  forall (i : Image) (at_x at_y : Z) (p : Z * Z) (pts : list (Z * Z)),
  exists maxX' maxY' minX' minY' : Z,
    snd (extents (detected i at_x at_y (p :: pts)))
      = (Fin maxX', Fin maxY', Fin minX', Fin minY')
    /\ (forall q, In q (p :: pts) ->
          minX' <= fst q <= maxX' /\ minY' <= snd q <= maxY')
    /\ (exists q, In q (p :: pts) /\ fst q = maxX')
    /\ (exists q, In q (p :: pts) /\ snd q = maxY')
    /\ (exists q, In q (p :: pts) /\ fst q = minX')
    /\ (exists q, In q (p :: pts) /\ snd q = minY').
Proof.
  intros i at_x at_y p pts.
  destruct (max_over_points fst p pts) as [HXub HXatt].
  destruct (max_over_points snd p pts) as [HYub HYatt].
  destruct (min_over_points fst p pts) as [HXlb HXmin].
  destruct (min_over_points snd p pts) as [HYlb HYmin].
  do 4 eexists. split; [| split; [| repeat split]].
  - unfold extents, detected, _updateExtents, set_points, __init__.
    cbn [mMaxX mMaxY mMinX mMinY is_None orb points fst snd].
    rewrite scan_extents_cons. reflexivity.
  - intros q Hq.
    specialize (HXub q Hq). specialize (HYub q Hq).
    specialize (HXlb q Hq). specialize (HYlb q Hq).
    cbv zeta in *. lia.
  - exact HXatt.
  - exact HYatt.
  - exact HXmin.
  - exact HYmin.
Qed.

(** X2: the extents are computed once and never again.  After a first
    query, assigning other points to the feature changes nothing in what
    the accessors return, and leaves the [boundingBox] attribute as it
    was: the cache is stale. *)
Theorem extents_never_recomputed :
  forall (F : Feature.t) (pts' : list (Z * Z)),
    let F1 := _updateExtents F in
    let F2 := set_points F1 pts' in
    _updateExtents F2 = F2
    /\ snd (extents F2) = snd (extents F1)
    /\ snd (maxX F2) = snd (maxX F1)
    /\ snd (maxY F2) = snd (maxY F1)
    /\ snd (minX F2) = snd (minX F1)
    /\ snd (minY F2) = snd (minY F1)
    /\ boundingBox (_updateExtents F2) = boundingBox F1.
Proof.
  intros F pts' F1 F2.
  destruct (updateExtents_cached F) as (Ha & Hb & Hc & Hd).
  fold F1 in Ha, Hb, Hc, Hd.
  assert (Hfix : _updateExtents F2 = F2).
  { unfold _updateExtents, F2, set_points.
    cbn [mMaxX mMaxY mMinX mMinY points].
    destruct (mMaxX F1), (mMaxY F1), (mMinX F1), (mMinY F1);
      try congruence. reflexivity. }
  assert (Hfix1 : _updateExtents F1 = F1) by apply updateExtents_idempotent.
  unfold extents, maxX, maxY, minX, minY. rewrite Hfix, Hfix1.
  repeat split.
Qed.

Lemma span_fold_max_min :
  forall (proj : Z * Z -> Z) (pts : list (Z * Z)) (hi lo : Z),
    fold_left (fun acc q => span_step acc (proj q)) pts (Fin hi, Fin lo)
    = (Fin (fold_left (fun m q => Z.max m (proj q)) pts hi),
       Fin (fold_left (fun m q => Z.min m (proj q)) pts lo)).
Proof.
  intros proj pts. induction pts as [| p pts IH]; intros hi lo; [reflexivity |].
  cbn [fold_left]. unfold span_step at 2. unfold gtb. cbn [ltb].
  destruct (Z.ltb_spec hi (proj p)), (Z.ltb_spec (proj p) lo);
    rewrite IH; repeat f_equal; lia.
Qed.

(** X3: on a feature fresh from the detector with at least one point,
    [width()] is [maxX() - minX()] and [height()] is [maxY() - minY()],
    both non-negative integers, and [area()] is their product: the scan
    that [width] and [height] make agrees with the cached extents. *)
Theorem width_height_agree_with_extents :
  forall (i : Image) (at_x at_y : Z) (p : Z * Z) (pts : list (Z * Z)),
    let F := detected i at_x at_y (p :: pts) in
    width F = sub (snd (maxX F)) (snd (minX F))
    /\ height F = sub (snd (maxY F)) (snd (minY F))
    /\ exists w h : Z,
        width F = Fin w /\ height F = Fin h /\ area F = Fin (w * h)
        /\ 0 <= w /\ 0 <= h.
Proof.
  intros i at_x at_y p pts F.
  destruct (accessors_detected i at_x at_y p pts) as (HmaxX & HmaxY & HminX & HminY).
  fold F in HmaxX, HmaxY, HminX, HminY.
  assert (Hw : width F
               = Fin (fold_left (fun m q => Z.max m (fst q)) pts (fst p)
                      - fold_left (fun m q => Z.min m (fst q)) pts (fst p))).
  { unfold width, F, detected, set_points. cbn [points length Nat.leb fold_left].
    unfold span_step at 2. cbn. rewrite (span_fold_max_min fst). reflexivity. }
  assert (Hh : height F
               = Fin (fold_left (fun m q => Z.max m (snd q)) pts (snd p)
                      - fold_left (fun m q => Z.min m (snd q)) pts (snd p))).
  { unfold height, F, detected, set_points. cbn [points length Nat.leb fold_left].
    unfold span_step at 2. cbn. rewrite (span_fold_max_min snd). reflexivity. }
  rewrite HmaxX, HmaxY, HminX, HminY.
  split; [exact Hw |]. split; [exact Hh |].
  do 2 eexists. split; [exact Hw |]. split; [exact Hh |].
  split; [unfold area; rewrite Hw, Hh; reflexivity |].
  destruct (max_over_points fst p pts) as [HXub _].
  destruct (min_over_points fst p pts) as [HXlb _].
  destruct (max_over_points snd p pts) as [HYub _].
  destruct (min_over_points snd p pts) as [HYlb _].
  specialize (HXub p (or_introl eq_refl)). specialize (HXlb p (or_introl eq_refl)).
  specialize (HYub p (or_introl eq_refl)). specialize (HYlb p (or_introl eq_refl)).
  cbv zeta in *. lia.
Qed.

(** What the four directional predicates return against a feature. *)
Lemma directional_feature_results :
  forall F G : Feature.t,
    snd (above F (OFeature G))
      = ([], Ret (Some (ltb (snd (maxY F)) (snd (minY G)))))
    /\ snd (below F (OFeature G))
      = ([], Ret (Some (gtb (snd (minY F)) (snd (maxY G)))))
    /\ snd (left F (OFeature G))
      = ([], Ret (Some (ltb (snd (maxX F)) (snd (minX G)))))
    /\ snd (right F (OFeature G))
      = ([], Ret (Some (gtb (snd (minX F)) (snd (maxX G))))).
Proof. intros F G. repeat split. Qed.

(** X4: a feature without points reports width, height and area 1, yet
    its extents are the sentinels: the maxima are minus infinity and the
    minima infinity.  So it is at once above, below, left and right of
    every integer and of every feature that has points.  A feature with
    exactly one point has area 0. *)
Theorem feature_without_points :
  forall (i : Image) (at_x at_y : Z),
    let E := detected i at_x at_y [] in
    width E = Fin 1 /\ height E = Fin 1 /\ area E = Fin 1
    /\ snd (extents E) = (NegInf, NegInf, PosInf, PosInf)
    /\ (forall p : Z * Z, area (detected i at_x at_y [p]) = Fin 0)
    /\ (forall n : Z,
          snd (above E (OInt n)) = ([], Ret (Some true))
          /\ snd (below E (OInt n)) = ([], Ret (Some true))
          /\ snd (left E (OInt n)) = ([], Ret (Some true))
          /\ snd (right E (OInt n)) = ([], Ret (Some true)))
    /\ (forall (j : Image) (gx gy : Z) (q : Z * Z) (qs : list (Z * Z)),
          let G := OFeature (detected j gx gy (q :: qs)) in
          snd (above E G) = ([], Ret (Some true))
          /\ snd (below E G) = ([], Ret (Some true))
          /\ snd (left E G) = ([], Ret (Some true))
          /\ snd (right E G) = ([], Ret (Some true))).
Proof.
  intros i at_x at_y E.
  do 4 (split; [reflexivity |]).
  split.
  - intros [px py]. unfold area, width, height, detected, set_points.
    cbn. f_equal. lia.
  - split.
    + intros n. repeat split.
    + intros j gx gy q qs G.
      destruct (accessors_detected j gx gy q qs) as (HmaxX & HmaxY & HminX & HminY).
      destruct (directional_feature_results E (detected j gx gy (q :: qs)))
        as (Ha & Hb & Hl & Hr).
      subst G. rewrite Ha, Hb, Hl, Hr, HmaxX, HmaxY, HminX, HminY.
      repeat split.
Qed.

(** What the four directional predicates return against an integer. *)
Lemma directional_int_results :
  forall (F : Feature.t) (n : Z),
    snd (above F (OInt n)) = ([], Ret (Some (ltb (snd (maxY F)) (Fin n))))
    /\ snd (below F (OInt n)) = ([], Ret (Some (gtb (snd (minY F)) (Fin n))))
    /\ snd (left F (OInt n)) = ([], Ret (Some (ltb (snd (maxX F)) (Fin n))))
    /\ snd (right F (OInt n)) = ([], Ret (Some (gtb (snd (minX F)) (Fin n)))).
Proof. intros F n. repeat split. Qed.

(** The minimum of a coordinate over a non-empty list of points is not
    above its maximum. *)
Lemma min_le_max_over_points :
  forall (proj : Z * Z -> Z) (p : Z * Z) (pts : list (Z * Z)),
    fold_left (fun m q => Z.min m (proj q)) pts (proj p)
    <= fold_left (fun m q => Z.max m (proj q)) pts (proj p).
Proof.
  intros proj p pts.
  destruct (max_over_points proj p pts) as [Hub _].
  destruct (min_over_points proj p pts) as [Hlb _].
  specialize (Hub p (or_introl eq_refl)). specialize (Hlb p (or_introl eq_refl)).
  cbv zeta in *. lia.
Qed.

(** X5: a feature fresh from the detector with at least one point is
    never both above and below, nor both left and right of, the same
    integer or the same feature with points. *)
Theorem directional_exclusive :
  forall (i : Image) (at_x at_y : Z) (p : Z * Z) (pts : list (Z * Z)),
    let F := detected i at_x at_y (p :: pts) in
    (forall n : Z,
        ~ (snd (above F (OInt n)) = ([], Ret (Some true))
           /\ snd (below F (OInt n)) = ([], Ret (Some true)))
        /\ ~ (snd (left F (OInt n)) = ([], Ret (Some true))
              /\ snd (right F (OInt n)) = ([], Ret (Some true))))
    /\ (forall (j : Image) (gx gy : Z) (q : Z * Z) (qs : list (Z * Z)),
          let G := OFeature (detected j gx gy (q :: qs)) in
          ~ (snd (above F G) = ([], Ret (Some true))
             /\ snd (below F G) = ([], Ret (Some true)))
          /\ ~ (snd (left F G) = ([], Ret (Some true))
                /\ snd (right F G) = ([], Ret (Some true)))).
Proof.
  intros i at_x at_y p pts F.
  destruct (accessors_detected i at_x at_y p pts) as (HmaxX & HmaxY & HminX & HminY).
  fold F in HmaxX, HmaxY, HminX, HminY.
  pose proof (min_le_max_over_points fst p pts) as HX.
  pose proof (min_le_max_over_points snd p pts) as HY.
  split.
  - intros n.
    destruct (directional_int_results F n) as (Ha & Hb & Hl & Hr).
    rewrite Ha, Hb, Hl, Hr, HmaxX, HmaxY, HminX, HminY.
    unfold gtb. cbn [ltb].
    split; intros [H1 H2]; injection H1 as H1; injection H2 as H2;
      apply Z.ltb_lt in H1, H2; lia.
  - intros j gx gy q qs G.
    destruct (accessors_detected j gx gy q qs) as (GmaxX & GmaxY & GminX & GminY).
    pose proof (min_le_max_over_points fst q qs) as GX.
    pose proof (min_le_max_over_points snd q qs) as GY.
    destruct (directional_feature_results F (detected j gx gy (q :: qs)))
      as (Ha & Hb & Hl & Hr).
    subst G.
    rewrite Ha, Hb, Hl, Hr, HmaxX, HmaxY, HminX, HminY,
      GmaxX, GmaxY, GminX, GminY.
    unfold gtb. cbn [ltb].
    split; intros [H1 H2]; injection H1 as H1; injection H2 as H2;
      apply Z.ltb_lt in H1, H2; lia.
Qed.

(** ** The cache invariant *)

Lemma updateExtents_consistent :
  forall F, cache_consistent F -> cache_consistent (_updateExtents F).
Proof.
  intros F [(Ha & Hb & Hc & Hd & Hbb) | (a & b & c & d & Ha & Hb & Hc & Hd & Hbb)].
  - right. unfold _updateExtents. rewrite Ha, Hb, Hc, Hd. cbn [is_None orb].
    destruct (scan_extents (points F)) as [[[a b] c] d].
    exists a, b, c, d. repeat split.
  - right. unfold _updateExtents. rewrite Ha, Hb, Hc, Hd. cbn [is_None orb].
    exists a, b, c, d. repeat split; assumption.
Qed.

(** The box test leaves the feature as [_updateExtents] does. *)
Lemma inside_box_state :
  forall F bx by_ bw bh, fst (inside_box F bx by_ bw bh) = _updateExtents F.
Proof.
  intros F bx by_ bw bh. unfold inside_box, maxX, minX, maxY, minY.
  rewrite !updateExtents_idempotent.
  repeat match goal with
         | |- context [if ?c then _ else _] => destruct c
         end; reflexivity.
Qed.

(** Each predicate leaves the feature as it was or as [_updateExtents]
    leaves it. *)
Lemma predicates_state :
  forall F other,
    (fst (contains F other) = F \/ fst (contains F other) = _updateExtents F)
    /\ fst (overlaps F other) = F
    /\ (fst (isContainedWithin F other) = F
        \/ fst (isContainedWithin F other) = _updateExtents F).
Proof.
  intros F other. repeat split.
  - descriptor_cases other; try (left; reflexivity).
    + right. unfold contains.
      pose proof (inside_box_state F a b c d) as H.
      destruct (inside_box F a b c d). exact H.
    + unfold contains. destruct (4 <=? length ps)%nat; left; reflexivity.
  - descriptor_cases other; try reflexivity.
    unfold overlaps. destruct (3 <=? length ps)%nat; reflexivity.
  - descriptor_cases other; try (left; reflexivity).
    + right. unfold isContainedWithin.
      pose proof (inside_box_state F a b c d) as H.
      destruct (inside_box F a b c d). exact H.
    + unfold isContainedWithin. destruct (2 <? length ps)%nat; left; reflexivity.
Qed.

Lemma directional_state :
  forall F object,
    (fst (fst (above F object)) = F
     \/ fst (fst (above F object)) = _updateExtents F)
    /\ (fst (fst (below F object)) = F
        \/ fst (fst (below F object)) = _updateExtents F)
    /\ (fst (fst (left F object)) = F
        \/ fst (fst (left F object)) = _updateExtents F)
    /\ (fst (fst (right F object)) = F
        \/ fst (fst (right F object)) = _updateExtents F).
Proof.
  intros F object.
  destruct object; repeat split; (left; reflexivity) || (right; reflexivity).
Qed.

(** X6: a new feature satisfies the cache invariant (nothing cached and
    [boundingBox] still the method, or four extents cached and
    [boundingBox] the list of their corners), and assigning points or an
    image, [_updateExtents], [contains], [overlaps], [isContainedWithin]
    and the four directional predicates keep it. *)
Theorem cache_invariant_kept :
  (forall i at_x at_y, cache_consistent (__init__ i at_x at_y))
  /\ (forall F : Feature.t,
        cache_consistent F ->
        (forall pts, cache_consistent (set_points F pts))
        /\ (forall i, cache_consistent (set_image F i))
        /\ cache_consistent (_updateExtents F)
        /\ (forall other : pyobj,
              cache_consistent (fst (contains F other))
              /\ cache_consistent (fst (overlaps F other))
              /\ cache_consistent (fst (isContainedWithin F other))
              /\ cache_consistent (fst (fst (above F other)))
              /\ cache_consistent (fst (fst (below F other)))
              /\ cache_consistent (fst (fst (left F other)))
              /\ cache_consistent (fst (fst (right F other))))).
Proof.
  split.
  - intros i at_x at_y. left. repeat split.
  - intros F HF.
    pose proof (updateExtents_consistent F HF) as HU.
    split; [intros pts; exact HF |].
    split; [intros i; exact HF |].
    split; [exact HU |].
    intros other.
    destruct (predicates_state F other) as (Hc & Ho & Hw).
    destruct (directional_state F other) as (Ha & Hb & Hl & Hr).
    rewrite Ho.
    repeat split;
      match goal with
      | H : ?s = F \/ ?s = _updateExtents F |- cache_consistent ?s =>
          destruct H as [-> | ->]; assumption
      | _ => assumption
      end.
Qed.

Lemma cache_invariant_kept_witness :
  cache_consistent (fst (contains square4 (OTuple [0; 0; 9; 9]))).
Proof.
  destruct cache_invariant_kept as [_ H].
  assert (Hsq : cache_consistent square4) by (left; repeat split).
  destruct (H square4 Hsq) as (_ & _ & _ & Hpred).
  apply (Hpred (OTuple [0; 0; 9; 9])).
Defined.


(** ** More on the point-in-polygon primitive *)

Lemma bind_ret :
  forall {A B : Type} (a : A) (k : A -> M B), bind (ret a) k = k a.
Proof. intros A B a k. unfold bind, ret. destruct (k a). reflexivity. Qed.

Lemma float_div_outcomes :
  forall a b : num,
    float_div a b = ([], Raise ZeroDivisionError)
    \/ exists t, float_div a b = ([], Ret t).
Proof.
  intros a b.
  destruct b as [| [| v | v] | |], a; cbn;
    first [left; reflexivity | right; eexists; reflexivity].
Qed.

(** One edge adds nothing or one to the counter, or divides by zero; it
    never warns. *)
Lemma edge_step_outcomes :
  forall (point p1 p2 : coord) (counter : Z),
    edge_step point p1 p2 counter = ([], Raise ZeroDivisionError)
    \/ edge_step point p1 p2 counter = ([], Ret counter)
    \/ edge_step point p1 p2 counter = ([], Ret (counter + 1)).
Proof.
  intros point p1 p2 counter. unfold edge_step.
  destruct (gtb (snd point) (min (snd p1) (snd p2))); [| right; left; reflexivity].
  destruct (leb (snd point) (max (snd p1) (snd p2))); [| right; left; reflexivity].
  destruct (leb (fst point) (max (fst p1) (fst p2))); [| right; left; reflexivity].
  destruct (neqb (snd p1) (snd p2)); [| right; left; reflexivity].
  destruct (float_div_outcomes
              (mul (sub (snd point) (snd p1)) (sub (fst p2) (fst p1)))
              (add (sub (snd p2) (snd p1)) (fst p1))) as [-> | [t ->]].
  - left. reflexivity.
  - right. rewrite (bind_ret t).
    destruct (eqb (fst p1) (fst p2) || le_flt (fst point) t);
      [right | left]; reflexivity.
Qed.

Lemma edge_loop_outcomes :
  forall (point : coord) (poly : list coord) (N : nat) (indices : list nat)
         (p1 : coord) (counter : Z),
    edge_loop point poly N indices p1 counter = ([], Raise ZeroDivisionError)
    \/ exists c, edge_loop point poly N indices p1 counter = ([], Ret c).
Proof.
  intros point poly N indices.
  induction indices as [| i rest IH]; intros p1 counter; cbn [edge_loop].
  - right. eexists. reflexivity.
  - destruct (edge_step_outcomes point p1 (nth (i mod N) poly p1) counter)
      as [-> | [-> | ->]].
    + left. reflexivity.
    + fold (@ret Z counter). rewrite bind_ret. apply IH.
    + fold (@ret Z (counter + 1)). rewrite bind_ret. apply IH.
Qed.

(** X8: on a list of at least three vertices the primitive returns a
    boolean or raises [ZeroDivisionError]; it raises nothing else and it
    does not warn. *)
Theorem pointInsidePolygon_outcomes :
  forall (point : coord) (polygon : list coord),
    (3 <= length polygon)%nat ->
    _pointInsidePolygon point (PointList polygon) = ([], Raise ZeroDivisionError)
    \/ exists b : bool, _pointInsidePolygon point (PointList polygon) = ([], Ret b).
Proof.
  intros point polygon Hlen.
  unfold _pointInsidePolygon, pointInsidePolygon_list.
  rewrite (proj2 (Nat.ltb_ge _ _) Hlen).
  destruct polygon as [| first rest]; [simpl in Hlen; lia |].
  cbn [app].
  destruct (edge_loop_outcomes point (first :: rest ++ [first])
              (length (first :: rest ++ [first]))
              (seq 1 (length (first :: rest ++ [first]))) first 0)
    as [-> | [c ->]].
  - left. reflexivity.
  - right. fold (@ret Z c). rewrite bind_ret.
    destruct (c mod 2 =? 0); eexists; reflexivity.
Qed.

Lemma pointInsidePolygon_outcomes_witness :
  _pointInsidePolygon (pt (5, 5)) (PointList square10) = ([], Raise ZeroDivisionError)
  \/ exists b : bool,
      _pointInsidePolygon (pt (5, 5)) (PointList square10) = ([], Ret b).
Proof.
  apply (pointInsidePolygon_outcomes (pt (5, 5)) square10).
  simpl. lia.
Defined.

(** An edge between two vertices that both satisfy [P] is skipped when
    [P] is one of the three ways of lying off the polygon. *)
Lemma edge_loop_skipped :
  forall (P : coord -> Prop) (point : coord),
    (forall v w counter, P v -> P w -> edge_step point v w counter = ret counter) ->
    forall (poly : list coord) (N : nat) (indices : list nat)
           (p1 : coord) (counter : Z),
      Forall P poly -> P p1 ->
      edge_loop point poly N indices p1 counter = ret counter.
Proof.
  intros P point Hskip poly N indices.
  induction indices as [| i rest IH]; intros p1 counter Hpoly Hp1;
    cbn [edge_loop]; [reflexivity |].
  assert (Hp2 : P (nth (i mod N) poly p1)).
  { destruct (nth_in_or_default (i mod N) poly p1) as [Hin | ->];
      [| exact Hp1].
    rewrite Forall_forall in Hpoly. apply Hpoly, Hin. }
  rewrite (Hskip _ _ counter Hp1 Hp2), bind_ret.
  apply IH; assumption.
Qed.

Lemma pointInsidePolygon_skipped :
  forall (P : coord -> Prop) (point : coord),
    (forall v w counter, P v -> P w -> edge_step point v w counter = ret counter) ->
    forall polygon : list coord,
      (3 <= length polygon)%nat ->
      Forall P polygon ->
      _pointInsidePolygon point (PointList polygon) = ([], Ret false).
Proof.
  intros P point Hskip polygon Hlen Hall.
  unfold _pointInsidePolygon, pointInsidePolygon_list.
  rewrite (proj2 (Nat.ltb_ge _ _) Hlen).
  destruct polygon as [| first rest]; [simpl in Hlen; lia |].
  cbn [app].
  rewrite (edge_loop_skipped P point Hskip).
  - rewrite bind_ret. reflexivity.
  - change (first :: rest ++ [first]) with ((first :: rest) ++ [first]).
    apply Forall_app. split; [exact Hall |].
    constructor; [| constructor]. inversion Hall; assumption.
  - inversion Hall; assumption.
Qed.

(** Off the polygon on the top, the bottom or the right: no edge is
    counted. *)
Lemma off_polygon_classified_outside :
  forall (px py : Z) (vertices : list (Z * Z)),
    (3 <= length vertices)%nat ->
    (forall v, In v vertices -> py <= snd v)
    \/ (forall v, In v vertices -> snd v < py)
    \/ (forall v, In v vertices -> fst v < px) ->
    _pointInsidePolygon (pt (px, py)) (PointList (map pt vertices))
    = ([], Ret false).
Proof.
  intros px py vertices Hlen Hoff.
  assert (Hlen' : (3 <= length (map pt vertices))%nat)
    by (rewrite length_map; exact Hlen).
  destruct Hoff as [Hoff | [Hoff | Hoff]].
  - apply (pointInsidePolygon_skipped
             (fun v => exists z, snd v = Fin z /\ py <= z)); [| exact Hlen' |].
    + intros v w counter (zv & Hv & Hzv) (zw & Hw & Hzw).
      unfold edge_step, gtb. rewrite Hv, Hw. cbn.
      destruct (Z.ltb_spec zw zv); cbn;
        match goal with
        | |- context [?a <? py] => destruct (Z.ltb_spec a py); [lia | reflexivity]
        end.
    + apply Forall_forall. intros v Hv. apply in_map_iff in Hv.
      destruct Hv as (z & <- & Hz). exists (snd z). split; [reflexivity |].
      apply Hoff, Hz.
  - apply (pointInsidePolygon_skipped
             (fun v => exists z, snd v = Fin z /\ z < py)); [| exact Hlen' |].
    + intros v w counter (zv & Hv & Hzv) (zw & Hw & Hzw).
      unfold edge_step, gtb. rewrite Hv, Hw. cbn.
      destruct (Z.ltb_spec zw zv); cbn;
        match goal with
        | |- context [?a <? py] => destruct (Z.ltb_spec a py); [| reflexivity]
        end;
        destruct (Z.ltb_spec zv zw); cbn;
        match goal with
        | |- context [py <=? ?a] => destruct (Z.leb_spec py a); [lia | reflexivity]
        end.
    + apply Forall_forall. intros v Hv. apply in_map_iff in Hv.
      destruct Hv as (z & <- & Hz). exists (snd z). split; [reflexivity |].
      apply Hoff, Hz.
  - apply (pointInsidePolygon_skipped
             (fun v => exists z, fst v = Fin z /\ z < px)); [| exact Hlen' |].
    + intros v w counter (zv & Hv & Hzv) (zw & Hw & Hzw).
      unfold edge_step. rewrite Hv, Hw.
      destruct (gtb (snd (pt (px, py))) (min (snd v) (snd w))); [| reflexivity].
      destruct (leb (snd (pt (px, py))) (max (snd v) (snd w))); [| reflexivity].
      cbn. destruct (Z.ltb_spec zv zw); cbn;
        match goal with
        | |- context [px <=? ?a] => destruct (Z.leb_spec px a); [lia | reflexivity]
        end.
    + apply Forall_forall. intros v Hv. apply in_map_iff in Hv.
      destruct Hv as (z & <- & Hz). exists (fst z). split; [reflexivity |].
      apply Hoff, Hz.
Qed.

(** X9: a point of integer coordinates that is not below the topmost
    vertex, or below every vertex, or to the right of every vertex of a
    polygon of at least three integer vertices is classified outside;
    nothing is raised or warned.  ([y] grows downwards.) *)
Theorem pointInsidePolygon_off_polygon :
  forall (px py : Z) (vertices : list (Z * Z)),
    (3 <= length vertices)%nat ->
    (forall v, In v vertices -> py <= snd v)
    \/ (forall v, In v vertices -> snd v < py)
    \/ (forall v, In v vertices -> fst v < px) ->
    _pointInsidePolygon (pt (px, py)) (PointList (map pt vertices))
    = ([], Ret false).
Proof.
  intros px py vertices Hlen Hoff.
  apply off_polygon_classified_outside; assumption.
Qed.

Lemma pointInsidePolygon_off_polygon_witness :
  _pointInsidePolygon (pt (15, 5))
                      (PointList (map pt [(0, 0); (0, 10); (10, 10); (10, 0)]))
  = ([], Ret false).
Proof.
  apply (pointInsidePolygon_off_polygon 15 5 [(0, 0); (0, 10); (10, 10); (10, 0)]).
  - simpl. lia.
  - right. right. intros v Hv. simpl in Hv.
    destruct Hv as [<- | [<- | [<- | [<- | []]]]]; simpl; lia.
Defined.

(** The operations on integers. *)
Lemma ltb_Fin : forall a b, ltb (Fin a) (Fin b) = (a <? b).
Proof. reflexivity. Qed.

Lemma leb_Fin : forall a b, leb (Fin a) (Fin b) = (a <=? b).
Proof. reflexivity. Qed.

Lemma eqb_Fin : forall a b, eqb (Fin a) (Fin b) = (a =? b).
Proof. reflexivity. Qed.

Lemma sub_Fin : forall a b, sub (Fin a) (Fin b) = Fin (a - b).
Proof. reflexivity. Qed.

Lemma add_Fin : forall a b, add (Fin a) (Fin b) = Fin (a + b).
Proof. reflexivity. Qed.

Lemma mul_Fin : forall a b, mul (Fin a) (Fin b) = Fin (a * b).
Proof. reflexivity. Qed.

Lemma min_Fin : forall a b, min (Fin a) (Fin b) = Fin (Z.min a b).
Proof.
  intros a b. unfold min. rewrite ltb_Fin.
  destruct (Z.ltb_spec b a); f_equal; lia.
Qed.

Lemma max_Fin : forall a b, max (Fin a) (Fin b) = Fin (Z.max a b).
Proof.
  intros a b. unfold max. rewrite ltb_Fin.
  destruct (Z.ltb_spec a b); f_equal; lia.
Qed.

Lemma float_div_Fin :
  forall a b,
    float_div (Fin a) (Fin b)
    = if b =? 0 then raise ZeroDivisionError
      else ret (FFin (inject_Z a / inject_Z b)%Q).
Proof. intros a [| b | b]; reflexivity. Qed.

Create Rewrite HintDb num_fin.
#[local] Hint Rewrite ltb_Fin leb_Fin eqb_Fin sub_Fin add_Fin mul_Fin
  min_Fin max_Fin float_div_Fin : num_fin.

(** An edge between two vertices of the same [y] is never counted. *)
Lemma edge_step_horizontal :
  forall (px py x1 x2 y0 counter : Z),
    edge_step (pt (px, py)) (Fin x1, Fin y0) (Fin x2, Fin y0) counter
    = ret counter.
Proof.
  intros px py x1 x2 y0 counter. unfold edge_step, gtb, neqb, pt.
  cbn [fst snd]. autorewrite with num_fin.
  rewrite Z.min_id, Z.max_id.
  destruct (Z.ltb_spec y0 py); [| reflexivity].
  destruct (Z.leb_spec py y0); [lia | reflexivity].
Qed.

(** A vertical edge at [x0] from [y1] to [y2] is counted when the point
    is in its half-open [y] range and not to the right of it, after a
    division by [(y2 - y1) + x0]. *)
Lemma edge_step_vertical :
  forall (px py x0 y1 y2 counter : Z),
    edge_step (pt (px, py)) (Fin x0, Fin y1) (Fin x0, Fin y2) counter
    = if (Z.min y1 y2 <? py) && (py <=? Z.max y1 y2) && (px <=? x0)
      then if (y2 - y1) + x0 =? 0
           then raise ZeroDivisionError
           else ret (counter + 1)
      else ret counter.
Proof.
  intros px py x0 y1 y2 counter. unfold edge_step, gtb, neqb, pt.
  cbn [fst snd]. autorewrite with num_fin.
  rewrite Z.max_id, Z.eqb_refl. cbn [orb].
  destruct (Z.ltb_spec (Z.min y1 y2) py); cbn [andb]; [| reflexivity].
  destruct (Z.leb_spec py (Z.max y1 y2)); cbn [andb]; [| reflexivity].
  destruct (Z.leb_spec px x0); [| reflexivity].
  destruct (Z.eqb_spec y1 y2) as [-> | Hne]; [lia |]. cbn [negb].
  destruct (Z.eqb_spec (y2 - y1 + x0) 0); [reflexivity |].
  rewrite bind_ret. reflexivity.
Qed.

(** The loop on a polygon of four vertices: four edges and the closing
    one from the first vertex to itself. *)
Lemma pointInsidePolygon_four_edges :
  forall (point A B C D : coord),
    _pointInsidePolygon point (PointList [A; B; C; D])
    = counter <- (c1 <- edge_step point A B 0 ;;
                  c2 <- edge_step point B C c1 ;;
                  c3 <- edge_step point C D c2 ;;
                  c4 <- edge_step point D A c3 ;;
                  c5 <- edge_step point A A c4 ;;
                  ret c5) ;;
      if counter mod 2 =? 0 then ret false else ret true.
Proof. intros point A B C D. reflexivity. Qed.

(** The loop on the four corners of a bounding box. *)
Lemma rectangle_point_test :
  forall (minX' minY' maxX' maxY' px py : Z),
    minX' <= maxX' -> minY' <= maxY' ->
    _pointInsidePolygon
      (pt (px, py))
      (PointList [(Fin minX', Fin minY'); (Fin minX', Fin maxY');
                  (Fin maxX', Fin maxY'); (Fin maxX', Fin minY')])
    = rectangle_test minX' minY' maxX' maxY' px py.
Proof.
  intros minX' minY' maxX' maxY' px py HX HY.
  rewrite pointInsidePolygon_four_edges. unfold rectangle_test.
  destruct ((minY' <? py) && (py <=? maxY')) eqn:Erange;
    destruct (px <=? minX') eqn:El; destruct (px <=? maxX') eqn:Er;
    destruct (maxY' - minY' + minX' =? 0) eqn:E1;
    destruct (minY' - maxY' + maxX' =? 0) eqn:E3;
    cbn [andb orb];
    try (apply Z.leb_le in El; apply Z.leb_gt in Er; lia);
    repeat first
      [ rewrite edge_step_horizontal
      | rewrite edge_step_vertical;
        rewrite ?(Z.min_l minY' maxY'), ?(Z.max_r minY' maxY'),
          ?(Z.min_r maxY' minY'), ?(Z.max_l maxY' minY') by lia;
        rewrite ?Erange, ?El, ?Er, ?E1, ?E3; cbn [andb]
      | rewrite bind_ret ];
    reflexivity.
Qed.

(** X10: the point test on an upright rectangle, corners in the order of
    a bounding box.  A point outside the half-open [y] range of the
    rectangle or to the right of it is outside.  Otherwise each vertical
    edge not to the left of the point divides, the left one by
    [(maxY - minY) + minX] and the right one by [(minY - maxY) + maxX],
    and the call raises when such a divisor is zero; when none is, the
    point is inside exactly when it is to the right of the left edge. *)
Theorem pointInsidePolygon_rectangle :
  forall (minX' minY' maxX' maxY' px py : Z),
    minX' <= maxX' -> minY' <= maxY' ->
    _pointInsidePolygon
      (pt (px, py))
      (PointList [(Fin minX', Fin minY'); (Fin minX', Fin maxY');
                  (Fin maxX', Fin maxY'); (Fin maxX', Fin minY')])
    = rectangle_test minX' minY' maxX' maxY' px py.
Proof.
  intros minX' minY' maxX' maxY' px py HX HY.
  apply rectangle_point_test; assumption.
Qed.

Lemma pointInsidePolygon_rectangle_witness :
  _pointInsidePolygon (pt (5, 5)) (PointList square10)
    = ([], Raise ZeroDivisionError)
  /\ _pointInsidePolygon
       (pt (5, 5))
       (PointList [(Fin 1, Fin 0); (Fin 1, Fin 10); (Fin 11, Fin 10); (Fin 11, Fin 0)])
     = ([], Ret true).
Proof.
  split.
  - apply (pointInsidePolygon_rectangle 0 0 10 10 5 5); lia.
  - apply (pointInsidePolygon_rectangle 1 0 11 10 5 5); lia.
Defined.

(** ** Points, boxes and circles against the bounding box *)

(** The feature after its first extent query, when it has points. *)
Lemma updateExtents_detected_cons :
  forall (i : Image) (at_x at_y : Z) (p : Z * Z) (pts : list (Z * Z)),
    _updateExtents (detected i at_x at_y (p :: pts))
    = mk at_x at_y i (p :: pts)
         (Some (Fin (fold_left (fun m q => Z.max m (fst q)) pts (fst p))))
         (Some (Fin (fold_left (fun m q => Z.max m (snd q)) pts (snd p))))
         (Some (Fin (fold_left (fun m q => Z.min m (fst q)) pts (fst p))))
         (Some (Fin (fold_left (fun m q => Z.min m (snd q)) pts (snd p))))
         (PointList
            [(Fin (fold_left (fun m q => Z.min m (fst q)) pts (fst p)),
              Fin (fold_left (fun m q => Z.min m (snd q)) pts (snd p)));
             (Fin (fold_left (fun m q => Z.min m (fst q)) pts (fst p)),
              Fin (fold_left (fun m q => Z.max m (snd q)) pts (snd p)));
             (Fin (fold_left (fun m q => Z.max m (fst q)) pts (fst p)),
              Fin (fold_left (fun m q => Z.max m (snd q)) pts (snd p)));
             (Fin (fold_left (fun m q => Z.max m (fst q)) pts (fst p)),
              Fin (fold_left (fun m q => Z.min m (snd q)) pts (snd p)))]).
Proof.
  intros i at_x at_y p pts.
  unfold detected, _updateExtents, set_points, __init__.
  cbn [mMaxX mMaxY mMinX mMinY is_None orb points x y image].
  rewrite scan_extents_cons. reflexivity.
Qed.

(** X11: on a feature with points whose extents have been queried,
    [contains] and [overlaps] of a point [(px, py)] are the point test
    on the rectangle of the extents.  In particular, when the right edge
    of the bounding box is at [x = maxY - minY] (a square whose left edge
    is at 0, for one), the call raises [ZeroDivisionError] for every
    point in the half-open [y] range of the box that is not to the right
    of it: no point of the box is ever reported inside. *)
Theorem contains_point_on_bounding_box :
  forall (i : Image) (at_x at_y : Z) (p : Z * Z) (pts : list (Z * Z))
         (px py : Z),
    let F := _updateExtents (detected i at_x at_y (p :: pts)) in
    exists maxX' maxY' minX' minY' : Z,
      snd (extents F) = (Fin maxX', Fin maxY', Fin minX', Fin minY')
      /\ contains F (OTuple [px; py])
         = (F, rectangle_test minX' minY' maxX' maxY' px py)
      /\ overlaps F (OTuple [px; py])
         = (F, rectangle_test minX' minY' maxX' maxY' px py)
      /\ (maxX' = maxY' - minY' ->
          minY' < py <= maxY' -> px <= maxX' ->
          contains F (OTuple [px; py]) = (F, ([], Raise ZeroDivisionError))).
Proof.
  intros i at_x at_y p pts px py F.
  pose proof (min_le_max_over_points fst p pts) as HX.
  pose proof (min_le_max_over_points snd p pts) as HY.
  assert (Hc : contains F (OTuple [px; py])
               = (F, rectangle_test
                       (fold_left (fun m q => Z.min m (fst q)) pts (fst p))
                       (fold_left (fun m q => Z.min m (snd q)) pts (snd p))
                       (fold_left (fun m q => Z.max m (fst q)) pts (fst p))
                       (fold_left (fun m q => Z.max m (snd q)) pts (snd p))
                       px py)).
  { unfold contains. f_equal.
    rewrite <- (rectangle_point_test _ _ _ _ px py HX HY).
    subst F. rewrite updateExtents_detected_cons. reflexivity. }
  do 4 eexists. split; [| split; [| split]].
  - subst F. unfold extents. rewrite updateExtents_idempotent.
    rewrite updateExtents_detected_cons. reflexivity.
  - exact Hc.
  - exact Hc.
  - intros Hsq Hy Hx. rewrite Hc. f_equal. unfold rectangle_test.
    destruct (Z.ltb_spec (fold_left (fun m q => Z.min m (snd q)) pts (snd p)) py);
      [| lia].
    destruct (Z.leb_spec py (fold_left (fun m q => Z.max m (snd q)) pts (snd p)));
      [| lia].
    destruct (Z.leb_spec px (fold_left (fun m q => Z.max m (fst q)) pts (fst p)));
      [| lia].
    cbn [andb].
    destruct (Z.eqb_spec
                (fold_left (fun m q => Z.min m (snd q)) pts (snd p)
                 - fold_left (fun m q => Z.max m (snd q)) pts (snd p)
                 + fold_left (fun m q => Z.max m (fst q)) pts (fst p)) 0);
      [| lia].
    rewrite orb_true_r.
    destruct (px <=? fold_left (fun m q => Z.min m (fst q)) pts (fst p));
      reflexivity.
Qed.

Lemma contains_point_on_bounding_box_witness :
  contains square4_queried (OTuple [2; 2])
  = (square4_queried, ([], Raise ZeroDivisionError)).
Proof.
  destruct (contains_point_on_bounding_box image100 2 2 (0, 0)
              [(0, 4); (4, 4); (4, 0)] 2 2)
    as (a & b & c & d & Hext & _ & _ & Hraise).
  injection Hext as Ha Hb Hc Hd. subst a b c d.
  apply Hraise; simpl; lia.
Defined.

(** What the box test returns, whatever the feature. *)
Lemma inside_box_value :
  forall F bx by_ bw bh,
    snd (inside_box F bx by_ bw bh)
    = leb (snd (maxX F)) (Fin (bx + bw))
      && geb (snd (minX F)) (Fin bx)
      && leb (snd (maxY F)) (Fin (by_ + bh))
      && geb (snd (minY F)) (Fin by_).
Proof.
  intros F bx by_ bw bh. unfold inside_box, maxX, minX, maxY, minY.
  rewrite !updateExtents_idempotent. cbn [fst snd].
  destruct (leb (cached (mMaxX (_updateExtents F))) (Fin (bx + bw)));
    [| reflexivity].
  destruct (geb (cached (mMinX (_updateExtents F))) (Fin bx)); [| reflexivity].
  destruct (leb (cached (mMaxY (_updateExtents F))) (Fin (by_ + bh)));
    reflexivity.
Qed.

Lemma fold_max_le :
  forall (proj : Z * Z -> Z) (p : Z * Z) (pts : list (Z * Z)) (m : Z),
    fold_left (fun m q => Z.max m (proj q)) pts (proj p) <= m
    <-> forall q, In q (p :: pts) -> proj q <= m.
Proof.
  intros proj p pts m.
  destruct (max_over_points proj p pts) as [Hub (q0 & Hq0 & Hatt)].
  cbv zeta in *. split.
  - intros H q Hq. specialize (Hub q Hq). lia.
  - intros H. rewrite <- Hatt. apply H, Hq0.
Qed.

Lemma fold_min_ge :
  forall (proj : Z * Z -> Z) (p : Z * Z) (pts : list (Z * Z)) (m : Z),
    m <= fold_left (fun m q => Z.min m (proj q)) pts (proj p)
    <-> forall q, In q (p :: pts) -> m <= proj q.
Proof.
  intros proj p pts m.
  destruct (min_over_points proj p pts) as [Hlb (q0 & Hq0 & Hatt)].
  cbv zeta in *. split.
  - intros H q Hq. specialize (Hlb q Hq). lia.
  - intros H. rewrite <- Hatt. apply H, Hq0.
Qed.

(** X12: against a box [(x, y, w, h)], [contains] and
    [isContainedWithin] return the same thing, without warning or
    exception: whether every point of the feature lies in the box,
    borders included.  (The feature is fresh from the detector and has
    at least one point.) *)
Theorem box_test_is_pointwise :
  forall (i : Image) (at_x at_y : Z) (p : Z * Z) (pts : list (Z * Z))
         (bx by_ bw bh : Z),
    let F := detected i at_x at_y (p :: pts) in
    exists b : bool,
      contains F (OTuple [bx; by_; bw; bh]) = (_updateExtents F, ([], Ret b))
      /\ isContainedWithin F (OTuple [bx; by_; bw; bh])
         = (_updateExtents F, ([], Ret b))
      /\ (b = true <-> forall q, In q (p :: pts) -> in_box bx by_ bw bh q).
Proof.
  intros i at_x at_y p pts bx by_ bw bh F.
  exists (snd (inside_box F bx by_ bw bh)).
  pose proof (inside_box_state F bx by_ bw bh) as Hst.
  split; [| split].
  - unfold contains. destruct (inside_box F bx by_ bw bh) as [F' r].
    cbn [fst snd] in *. rewrite Hst. reflexivity.
  - unfold isContainedWithin. destruct (inside_box F bx by_ bw bh) as [F' r].
    cbn [fst snd] in *. rewrite Hst. reflexivity.
  - rewrite inside_box_value. subst F.
    destruct (accessors_detected i at_x at_y p pts) as (-> & -> & -> & ->).
    unfold geb. rewrite !leb_Fin, !andb_true_iff, !Z.leb_le.
    rewrite (fold_max_le fst), (fold_max_le snd),
      (fold_min_ge fst), (fold_min_ge snd).
    unfold in_box. split.
    + intros [[[H1 H2] H3] H4] q Hq.
      specialize (H1 q Hq). specialize (H2 q Hq).
      specialize (H3 q Hq). specialize (H4 q Hq). lia.
    + intros H. repeat split; intros q Hq; specialize (H q Hq); lia.
Qed.

Lemma forallb_negb_existsb :
  forall {A : Type} (test : A -> bool) (l : list A),
    forallb (fun a => negb (test a)) l = negb (existsb test l).
Proof.
  intros A test l. induction l as [| a l IH]; [reflexivity |].
  cbn [forallb existsb]. rewrite IH. destruct (test a); reflexivity.
Qed.

(** X13: against a circle, on a feature whose [boundingBox] attribute
    holds its corners, [contains] is the negation of [overlaps]: exactly
    one of the two returns true. *)
Theorem circle_contains_negates_overlaps :
  forall (F : Feature.t) (cx cy r : Z) (l : list coord),
    boundingBox F = PointList l ->
    exists b : bool,
      contains F (OTuple [cx; cy; r]) = (F, ([], Ret b))
      /\ overlaps F (OTuple [cx; cy; r]) = (F, ([], Ret (negb b)))
      /\ doesNotOverlap F (OTuple [cx; cy; r]) = (F, ([], Ret b)).
Proof.
  intros F cx cy r l Hbb.
  exists (forallb (fun p => negb (ltb (sqdist cx cy p) (Fin (r * r)))) l).
  assert (Ho : overlaps F (OTuple [cx; cy; r])
               = (F, ([], Ret (existsb (fun p => ltb (sqdist cx cy p)
                                                     (Fin (r * r))) l)))).
  { unfold overlaps. rewrite Hbb. reflexivity. }
  split; [| split].
  - unfold contains. rewrite Hbb. reflexivity.
  - rewrite Ho, forallb_negb_existsb, negb_involutive. reflexivity.
  - unfold doesNotOverlap. rewrite Ho, forallb_negb_existsb. reflexivity.
Qed.

Lemma circle_contains_negates_overlaps_witness :
  contains square4_queried (OTuple [2; 2; 1]) = (square4_queried, ([], Ret true))
  /\ overlaps square4_queried (OTuple [2; 2; 1])
     = (square4_queried, ([], Ret false)).
Proof.
  destruct (circle_contains_negates_overlaps square4_queried 2 2 1
              (map pt [(0, 0); (0, 4); (4, 4); (4, 0)]) eq_refl)
    as (b & Hc & Ho & _).
  assert (Hb : b = true).
  { assert (H : contains square4_queried (OTuple [2; 2; 1])
                = (square4_queried, ([], Ret true))) by reflexivity.
    rewrite Hc in H. injection H as H. exact H. }
  subst b. split; [exact Hc | exact Ho].
Defined.

(** X14: a feature without points is contained in every feature:
    [F.contains(E)] and [E.isContainedWithin(F)] return true, without
    warning or exception, whatever [F] is, even a feature whose bounding
    box has never been computed. *)
Theorem pointless_feature_contained :
  forall (F E : Feature.t),
    points E = [] ->
    contains F (OFeature E) = (F, ([], Ret true))
    /\ isContainedWithin E (OFeature F) = (E, ([], Ret true))
    /\ doesNotContain F (OFeature E) = (F, ([], Ret false)).
Proof.
  intros F E HE.
  assert (Hc : contains F (OFeature E) = (F, ([], Ret true))).
  { unfold contains. rewrite HE. reflexivity. }
  split; [exact Hc |]. split.
  - unfold isContainedWithin. rewrite Hc. reflexivity.
  - unfold doesNotContain. rewrite Hc. reflexivity.
Qed.

Lemma pointless_feature_contained_witness :
  contains square4 (OFeature origin_feature) = (square4, ([], Ret true)).
Proof.
  apply (pointless_feature_contained square4 origin_feature). reflexivity.
Defined.

(** ** Distances over a collection *)

Lemma euclidean_sq_sym : forall u v, euclidean_sq u v = euclidean_sq v u.
Proof. intros u v. unfold euclidean_sq. lia. Qed.

(** X15: with a point that has no coordinate equal to -1, the
    collection's [distanceFrom] on a non-empty collection is the
    sequence of what each element's [distanceFrom] returns for that
    point. *)
Theorem FeatureSet_distanceFrom_explicit :
  forall (f : Feature.t) (fs : FeatureSet.t) (point : Z * Z),
    fst point <> -1 -> snd point <> -1 ->
    FeatureSet.distanceFrom (f :: fs) point
    = ([], Ret (map (fun g => Feature.distanceFrom g point) (f :: fs))).
Proof.
  intros f fs point Hx Hy.
  unfold FeatureSet.distanceFrom, Feature.distanceFrom.
  rewrite (proj2 (Z.eqb_neq _ _) Hx), (proj2 (Z.eqb_neq _ _) Hy).
  cbn [orb andb]. rewrite bind_ret.
  unfold cdist, column0, FeatureSet.coordinates.
  cbn [map]. rewrite bind_ret. cbn [map nth]. unfold ret.
  rewrite !map_map. cbn [map nth].
  rewrite (euclidean_sq_sym (Feature.x f, Feature.y f) point).
  do 3 f_equal. apply map_ext. intros g. apply euclidean_sq_sym.
Qed.

Lemma FeatureSet_distanceFrom_explicit_witness :
  FeatureSet.distanceFrom [origin_feature; square4] (3, 4) = ([], Ret [25; 5]).
Proof.
  rewrite (FeatureSet_distanceFrom_explicit origin_feature [square4] (3, 4));
    [reflexivity | simpl; lia | simpl; lia].
Defined.

(** X16: a point with [x = -1], or with [y = -1] on a non-empty
    collection, is taken for a missing argument: the distances are those
    of the call without a point.  On an empty collection the call always
    raises: [IndexError] when [x = -1] (from [self[0]]), [ValueError]
    otherwise (from [cdist]). *)
Theorem FeatureSet_distanceFrom_sentinel :
  (forall (f : Feature.t) (fs : FeatureSet.t) (c : Z),
      FeatureSet.distanceFrom (f :: fs) (-1, c)
        = FeatureSet.distanceFrom (f :: fs) (-1, -1)
      /\ FeatureSet.distanceFrom (f :: fs) (c, -1)
         = FeatureSet.distanceFrom (f :: fs) (-1, -1))
  /\ (forall c : Z, FeatureSet.distanceFrom [] (-1, c) = ([], Raise IndexError))
  /\ (forall px py : Z,
        px <> -1 -> FeatureSet.distanceFrom [] (px, py) = ([], Raise ValueError)).
Proof.
  split; [| split].
  - intros f fs c. split.
    + reflexivity.
    + unfold FeatureSet.distanceFrom. cbn [fst snd length Nat.eqb negb andb].
      rewrite Z.eqb_refl, orb_true_r. reflexivity.
  - intros c. reflexivity.
  - intros px py Hpx. unfold FeatureSet.distanceFrom.
    cbn [fst snd length Nat.eqb negb andb].
    rewrite (proj2 (Z.eqb_neq _ _) Hpx), andb_false_r. reflexivity.
Qed.

Lemma FeatureSet_distanceFrom_sentinel_witness :
  FeatureSet.distanceFrom [] (5, -1) = ([], Raise ValueError).
Proof.
  destruct FeatureSet_distanceFrom_sentinel as (_ & _ & H).
  apply (H 5 (-1)). lia.
Defined.

(** ** More on sorting *)

(** A list already in ascending order comes back as it is. *)
Lemma sorted_of_ascending :
  forall {A : Type} (key : A -> Z) (l : list A),
    StronglySorted (fun a b => key a <= key b) l ->
    sorted Z.ltb key l = l.
Proof.
  intros A key l Hs. induction Hs as [| a l Hs IH Ha]; [reflexivity |].
  cbn [sorted fold_right]. fold (sorted Z.ltb key l). rewrite IH.
  destruct l as [| b l]; [reflexivity |].
  cbn [insert]. inversion Ha as [| ? ? Hab _]; subst.
  rewrite (proj2 (Z.ltb_ge _ _) Hab). reflexivity.
Qed.

(** X17: [sortDistance] returns the features of the receiver, ascending
    by the distance of each from the point (the image centre when the
    point has a coordinate -1), features at equal distance in the order
    they had. *)
Theorem sortDistance_ascending_stable :
  forall (fs : FeatureSet.t) (point : Z * Z),
    Permutation fs (FeatureSet.sortDistance fs point)
    /\ StronglySorted
         (fun f g => Feature.distanceFrom f point <= Feature.distanceFrom g point)
         (FeatureSet.sortDistance fs point)
    /\ (forall d : Z,
          filter (fun f => Feature.distanceFrom f point =? d)
                 (FeatureSet.sortDistance fs point)
          = filter (fun f => Feature.distanceFrom f point =? d) fs).
Proof.
  intros fs point. unfold FeatureSet.sortDistance. repeat split.
  - apply sorted_perm.
  - apply (sorted_ascending (fun f => Feature.distanceFrom f point)).
  - intros d. apply (sorted_stable (fun f => Feature.distanceFrom f point)).
Qed.

(** X18: sorting twice is sorting once, for [sortArea] and for
    [sortDistance]; a collection already ascending by area comes back
    unchanged. *)
Theorem sort_idempotent :
  forall fs : FeatureSet.t,
    FeatureSet.sortArea (FeatureSet.sortArea fs) = FeatureSet.sortArea fs
    /\ (forall point,
          FeatureSet.sortDistance (FeatureSet.sortDistance fs point) point
          = FeatureSet.sortDistance fs point)
    /\ (StronglySorted (fun f g => leb (area f) (area g) = true) fs ->
        FeatureSet.sortArea fs = fs).
Proof.
  intros fs. unfold FeatureSet.sortArea, FeatureSet.sortDistance.
  assert (Hasc : forall l,
             StronglySorted (fun f g => leb (area f) (area g) = true) l ->
             sorted ltb area l = l).
  { intros l Hl. rewrite (sorted_num_keys area l area_Fin).
    apply sorted_of_ascending.
    induction Hl as [| a l Hl IH Ha]; constructor; [exact IH |].
    eapply Forall_impl; [| exact Ha].
    intros b Hb. cbv beta in Hb.
    rewrite (area_Fin a), (area_Fin b), leb_Fin in Hb. apply Z.leb_le, Hb. }
  split; [| split].
  - apply Hasc.
    rewrite (sorted_num_keys area fs area_Fin).
    pose proof (sorted_ascending (fun f => to_Z (area f)) fs) as Hs.
    induction Hs as [| a l Hs IH Ha]; constructor; [exact IH |].
    eapply Forall_impl; [| exact Ha].
    intros b Hb. cbv beta in Hb.
    rewrite (area_Fin a), (area_Fin b), leb_Fin. apply Z.leb_le, Hb.
  - intros point. apply sorted_of_ascending.
    apply (sorted_ascending (fun f => Feature.distanceFrom f point)).
  - exact (Hasc fs).
Qed.

Lemma sort_idempotent_witness :
  FeatureSet.sortArea [strip 10; strip 20; strip 30]
  = [strip 10; strip 20; strip 30].
Proof.
  destruct (sort_idempotent [strip 10; strip 20; strip 30]) as (_ & _ & H).
  apply H. repeat constructor.
Defined.

(** ** More on filtering by a mask *)

Lemma mask_select_length :
  forall {A : Type} (a : list A) (mask : list bool),
    length mask = length a ->
    length (map fst (filter snd (combine a mask)))
    = count_occ bool_dec mask true.
Proof.
  intros A a. induction a as [| v a IH]; intros [| b mask] Hlen;
    try discriminate; [reflexivity |].
  injection Hlen as Hlen. cbn [combine filter snd].
  destruct b; cbn [map length count_occ];
    (destruct (bool_dec _ _) as [E | E]; [try discriminate E | try congruence]);
    rewrite (IH mask Hlen); reflexivity.
Qed.

Lemma mask_select_incl :
  forall {A : Type} (a : list A) (mask : list bool),
    incl (map fst (filter snd (combine a mask))) a.
Proof.
  intros A a mask v Hv. apply in_map_iff in Hv.
  destruct Hv as ([v' b] & <- & Hin). apply filter_In in Hin.
  destruct Hin as [Hin _]. apply in_combine_l in Hin. exact Hin.
Qed.

(** X19: when [filter] returns, the result has as many elements as the
    mask has true entries, and each of them is an element of the
    receiver; the mask that is true everywhere gives back the
    collection, the mask that is false everywhere the empty one. *)
Theorem filter_mask_counts :
  forall (fs : FeatureSet.t),
    (forall (mask : list bool) (out : FeatureSet.t),
        FeatureSet.filter fs mask = ([], Ret out) ->
        length mask = length fs
        /\ length out = count_occ bool_dec mask true
        /\ incl out fs)
    /\ FeatureSet.filter fs (repeat true (length fs)) = ([], Ret fs)
    /\ FeatureSet.filter fs (repeat false (length fs)) = ([], Ret []).
Proof.
  intros fs. unfold FeatureSet.filter, np_getitem_mask. split; [| split].
  - intros mask out Hret.
    destruct (Nat.eqb_spec (length mask) (length fs)) as [Hlen | Hlen];
      [| discriminate Hret].
    injection Hret as <-. split; [exact Hlen |]. split.
    + apply mask_select_length, Hlen.
    + apply mask_select_incl.
  - rewrite repeat_length, Nat.eqb_refl. unfold ret. do 2 f_equal.
    induction fs as [| f fs IH]; [reflexivity |].
    cbn [length repeat combine filter snd map fst]. rewrite IH. reflexivity.
  - rewrite repeat_length, Nat.eqb_refl. unfold ret. do 2 f_equal.
    induction fs as [| f fs IH]; [reflexivity |].
    cbn [length repeat combine filter snd map fst]. exact IH.
Qed.

Lemma filter_mask_counts_witness :
  length [strip 30; strip 20] = count_occ bool_dec [true; false; true] true.
Proof.
  destruct (filter_mask_counts [strip 30; strip 10; strip 20]) as (H & _ & _).
  apply (H [true; false; true] [strip 30; strip 20]). reflexivity.
Defined.

(** ** Selecting the features of a collection *)

(** A test that neither raises nor warns and leaves the region alone
    selects by its boolean. *)
Lemma select_pure :
  forall (test : Feature.t -> pyobj -> Feature.t * pyobj * M bool)
         (upd : Feature.t -> Feature.t) (keep : Feature.t -> bool)
         (region : pyobj),
    (forall f, test f region = (upd f, region, ([], Ret (keep f)))) ->
    forall fs : FeatureSet.t,
      FeatureSet.select test fs region
      = (map upd fs, region, ([], Ret (map upd (filter keep fs)))).
Proof.
  intros test upd keep region Htest fs.
  induction fs as [| f fs IH]; [reflexivity |].
  cbn [FeatureSet.select]. rewrite Htest, IH.
  cbn [map filter]. destruct (keep f); reflexivity.
Qed.

(** A test that only warns and answers false selects nothing and warns
    once for each feature. *)
Lemma select_warned :
  forall (test : Feature.t -> pyobj -> Feature.t * pyobj * M bool)
         (msg : string) (region : pyobj),
    (forall f, test f region = (f, region, ([msg], Ret false))) ->
    forall fs : FeatureSet.t,
      FeatureSet.select test fs region
      = (fs, region, (repeat msg (length fs), Ret [])).
Proof.
  intros test msg region Htest fs.
  induction fs as [| f fs IH]; [reflexivity |].
  cbn [FeatureSet.select]. rewrite Htest, IH.
  cbn. rewrite app_nil_r. reflexivity.
Qed.

(** X20: with a region that is neither a feature, a tuple, an array nor
    a scalar, the collection's [above], [below], [left] and [right]
    return the empty collection, leave the features as they were and
    warn once for each feature. *)
Theorem FeatureSet_directional_unrecognised :
  forall (fs : FeatureSet.t) (region : pyobj),
    isinstance region TFeature = false ->
    isinstance region TTuple = false ->
    isinstance region TNdarray = false ->
    isinstance region TInt = false ->
    isinstance region TFloat = false ->
    FeatureSet.above fs region
      = (fs, region,
         (repeat "SimpleCV did not recognize the input type to feature.above(). This method only takes another feature, an (x,y) tuple, or a ndarray type."%string
                 (length fs), Ret []))
    /\ FeatureSet.below fs region
       = (fs, region,
          (repeat "SimpleCV did not recognize the input type to feature.below(). This method only takes another feature, an (x,y) tuple, or a ndarray type."%string
                  (length fs), Ret []))
    /\ FeatureSet.left fs region
       = (fs, region,
          (repeat "SimpleCV did not recognize the input type to feature.left(). This method only takes another feature, an (x,y) tuple, or a ndarray type."%string
                  (length fs), Ret []))
    /\ FeatureSet.right fs region
       = (fs, region,
          (repeat "SimpleCV did not recognize the input type to feature.right(). This method only takes another feature, an (x,y) tuple, or a ndarray type."%string
                  (length fs), Ret [])).
Proof.
  intros fs region HF HT HA HI HFl.
  unfold FeatureSet.above, FeatureSet.below, FeatureSet.left, FeatureSet.right.
  destruct region; try discriminate;
    repeat split; apply select_warned; intros f; reflexivity.
Qed.

Lemma FeatureSet_directional_unrecognised_witness :
  snd (FeatureSet.above [square4; origin_feature] (OList [(0, 0); (0, 1); (1, 1)]))
  = (["SimpleCV did not recognize the input type to feature.above(). This method only takes another feature, an (x,y) tuple, or a ndarray type."%string;
      "SimpleCV did not recognize the input type to feature.above(). This method only takes another feature, an (x,y) tuple, or a ndarray type."%string],
     Ret []).
Proof.
  destruct (FeatureSet_directional_unrecognised
              [square4; origin_feature] (OList [(0, 0); (0, 1); (1, 1)])
              eq_refl eq_refl eq_refl eq_refl eq_refl) as (Ha & _).
  rewrite Ha. reflexivity.
Defined.

(** X21: with an integer [n] as the region, the collection's [above]
    returns, in their order and with their extents cached, the features
    whose [maxY()] is below [n], [below] those whose [minY()] is above
    [n], [left] those whose [maxX()] is below [n] and [right] those
    whose [minX()] is above [n]; every feature of the receiver has its
    extents cached afterwards, and nothing is warned or raised. *)
Theorem FeatureSet_directional_int :
  forall (fs : FeatureSet.t) (n : Z),
    FeatureSet.above fs (OInt n)
      = (map _updateExtents fs, OInt n,
         ([], Ret (map _updateExtents
                       (filter (fun f => ltb (snd (maxY f)) (Fin n)) fs))))
    /\ FeatureSet.below fs (OInt n)
       = (map _updateExtents fs, OInt n,
          ([], Ret (map _updateExtents
                        (filter (fun f => gtb (snd (minY f)) (Fin n)) fs))))
    /\ FeatureSet.left fs (OInt n)
       = (map _updateExtents fs, OInt n,
          ([], Ret (map _updateExtents
                        (filter (fun f => ltb (snd (maxX f)) (Fin n)) fs))))
    /\ FeatureSet.right fs (OInt n)
       = (map _updateExtents fs, OInt n,
          ([], Ret (map _updateExtents
                        (filter (fun f => gtb (snd (minX f)) (Fin n)) fs)))).
Proof.
  intros fs n.
  unfold FeatureSet.above, FeatureSet.below, FeatureSet.left, FeatureSet.right.
  repeat split; apply select_pure; intros f; reflexivity.
Qed.

(** Selecting by a test and by its negation: when the first selection
    returns, so does the second, with the same warnings and the same
    features and region afterwards, and the two results share out the
    features. *)
Lemma select_negated :
  forall (test : Feature.t -> pyobj -> Feature.t * M bool)
         (fs : FeatureSet.t) (region : pyobj)
         (w : list string) (ins : FeatureSet.t),
    snd (FeatureSet.select
           (fun f region => let '(f, m) := test f region in (f, region, m))
           fs region) = (w, Ret ins) ->
    exists outs : FeatureSet.t,
      FeatureSet.select
        (fun f region =>
           let '(f, m) :=
             (let '(f, m) := test f region in (f, r <- m ;; ret (negb r))) in
           (f, region, m))
        fs region
      = (fst (FeatureSet.select
                (fun f region => let '(f, m) := test f region in (f, region, m))
                fs region),
         (w, Ret outs))
      /\ Permutation (ins ++ outs)
                     (fst (fst (FeatureSet.select
                                  (fun f region =>
                                     let '(f, m) := test f region in (f, region, m))
                                  fs region))).
Proof.
  intros test fs region. induction fs as [| f fs IH]; intros w ins Hret.
  - injection Hret as <- <-. exists []. split; [reflexivity | constructor].
  - cbn [FeatureSet.select] in *.
    destruct (test f region) as [f' [w1 [b | e]]]; [| discriminate Hret].
    destruct (FeatureSet.select
                (fun f region => let '(f, m) := test f region in (f, region, m))
                fs region) as [[rest' region'] [w' [fs' | e']]] eqn:Esel;
      [| discriminate Hret].
    cbn in Hret. injection Hret as <- <-.
    destruct (IH w' fs' eq_refl) as (outs' & Hsel' & Hperm).
    cbn [fst snd] in Hsel', Hperm.
    exists (if negb b then f' :: outs' else outs'). split.
    + cbn. rewrite Hsel'. cbn. rewrite !app_nil_r. reflexivity.
    + cbn [fst]. destruct b; cbn [negb app].
      * apply perm_skip, Hperm.
      * apply Permutation_sym, Permutation_cons_app, Permutation_sym, Hperm.
Qed.

(** X22: [inside] and [outside] share out the collection.  When
    [inside] returns for a region, [outside] returns too, with the same
    warnings, and each feature of the receiver (as the call leaves it)
    is in exactly one of the two results. *)
Theorem inside_outside_partition :
  forall (fs : FeatureSet.t) (region : pyobj)
         (w : list string) (ins : FeatureSet.t),
    snd (FeatureSet.inside fs region) = (w, Ret ins) ->
    exists outs : FeatureSet.t,
      FeatureSet.outside fs region
      = (fst (FeatureSet.inside fs region), (w, Ret outs))
      /\ Permutation (ins ++ outs) (fst (fst (FeatureSet.inside fs region))).
Proof.
  intros fs region w ins Hret.
  apply (select_negated isContainedWithin fs region w ins Hret).
Qed.

Lemma inside_outside_partition_witness :
  exists outs : FeatureSet.t,
    FeatureSet.outside [strip 30; strip 10; strip 20] (OTuple [0; 0; 20; 5])
    = (fst (FeatureSet.inside [strip 30; strip 10; strip 20]
                              (OTuple [0; 0; 20; 5])),
       ([], Ret outs))
    /\ Permutation
         ([_updateExtents (strip 10); _updateExtents (strip 20)] ++ outs)
         (fst (fst (FeatureSet.inside [strip 30; strip 10; strip 20]
                                      (OTuple [0; 0; 20; 5])))).
Proof.
  apply (inside_outside_partition
           [strip 30; strip 10; strip 20] (OTuple [0; 0; 20; 5]) []
           [_updateExtents (strip 10); _updateExtents (strip 20)]).
  reflexivity.
Defined.

(** ** The image of a collection *)

(** X23: after the image of a collection is set to [i], every feature
    refers to [i] and the collection's image is [i], unless the
    collection is empty, whose image stays [None]; coordinates, areas
    and cached extents are untouched.  The default reference point of
    [distanceFrom] follows: it is the size of [i]. *)
Theorem set_image_then_image :
  forall (fs : FeatureSet.t) (i : Image),
    FeatureSet.image (FeatureSet.set_image fs i)
      = match fs with [] => None | _ :: _ => Some i end
    /\ Forall (fun f => Feature.image f = i) (FeatureSet.set_image fs i)
    /\ FeatureSet.coordinates (FeatureSet.set_image fs i)
       = FeatureSet.coordinates fs
    /\ FeatureSet.area (FeatureSet.set_image fs i) = FeatureSet.area fs
    /\ map (fun f => snd (extents f)) (FeatureSet.set_image fs i)
       = map (fun f => snd (extents f)) fs
    /\ (fs <> [] ->
        FeatureSet.distanceFrom (FeatureSet.set_image fs i) (-1, -1)
        = ([], Ret (map (fun g => euclidean_sq (Feature.x g, Feature.y g) (size i))
                        fs))).
Proof.
  intros fs i. unfold FeatureSet.set_image.
  split; [destruct fs; reflexivity |].
  split; [apply Forall_forall; intros f Hf; apply in_map_iff in Hf;
          destruct Hf as (g & <- & _); reflexivity |].
  split; [unfold FeatureSet.coordinates; rewrite map_map; reflexivity |].
  split; [unfold FeatureSet.area; rewrite map_map; reflexivity |].
  split.
  - rewrite map_map. apply map_ext. intros f.
    unfold extents, _updateExtents, Feature.set_image.
    cbn [mMaxX mMaxY mMinX mMinY points].
    destruct (is_None (mMaxX f) || is_None (mMaxY f)
              || is_None (mMinX f) || is_None (mMinY f));
      [destruct (scan_extents (points f)) as [[[a b] c] d] |]; reflexivity.
  - intros Hne. destruct fs as [| f fs]; [congruence |].
    cbn [map]. rewrite FeatureSet_distanceFrom_default.
    cbn [map Feature.set_image Feature.image Feature.x Feature.y].
    rewrite map_map. reflexivity.
Qed.

Lemma set_image_then_image_witness :
  FeatureSet.distanceFrom (FeatureSet.set_image [origin_feature] (mkImage (6, 8)))
                          (-1, -1)
  = ([], Ret [100]).
Proof.
  destruct (set_image_then_image [origin_feature] (mkImage (6, 8)))
    as (_ & _ & _ & _ & _ & H).
  rewrite H; [reflexivity | discriminate].
Defined.

(** ** Tuples as regions of the directional predicates *)


(** ** A feature against a polygon *)

(** X25: a feature with points and queried extents is not contained in
    a polygon (a list of at least three integer vertices) when the top
    left corner of its bounding box is not below the topmost vertex, or
    below every vertex, or to the right of every vertex:
    [isContainedWithin] returns false at the first corner, without
    warning or exception. *)
Theorem isContainedWithin_polygon_corner_off :
  forall (i : Image) (at_x at_y : Z) (p : Z * Z) (pts : list (Z * Z))
         (vertices : list (Z * Z)) (tx ty : Z),
    let F := _updateExtents (detected i at_x at_y (p :: pts)) in
    (3 <= length vertices)%nat ->
    snd (topLeftCorner F) = (Fin tx, Fin ty) ->
    (forall v, In v vertices -> ty <= snd v)
    \/ (forall v, In v vertices -> snd v < ty)
    \/ (forall v, In v vertices -> fst v < tx) ->
    isContainedWithin F (OList vertices) = (F, ([], Ret false)).
Proof.
  intros i at_x at_y p pts vertices tx ty F Hlen Hcorner Hoff.
  pose proof (off_polygon_classified_outside tx ty vertices Hlen Hoff) as Hpip.
  unfold isContainedWithin.
  rewrite (proj2 (Nat.ltb_lt 2 (length vertices)) Hlen).
  subst F. unfold topLeftCorner in Hcorner.
  rewrite updateExtents_idempotent in Hcorner.
  rewrite updateExtents_detected_cons in *.
  cbn [boundingBox iter mMinX mMinY cached snd] in *.
  injection Hcorner as Htx Hty. rewrite bind_ret.
  cbn [all_inside]. rewrite Htx, Hty.
  change (Fin tx, Fin ty) with (pt (tx, ty)). rewrite Hpip. reflexivity.
Qed.

Lemma isContainedWithin_polygon_corner_off_witness :
  isContainedWithin square4_queried (OList [(1, 1); (1, 9); (9, 9)])
  = (square4_queried, ([], Ret false)).
Proof.
  apply (isContainedWithin_polygon_corner_off image100 2 2 (0, 0)
           [(0, 4); (4, 4); (4, 0)] [(1, 1); (1, 9); (9, 9)] 0 0).
  - simpl. lia.
  - reflexivity.
  - left. intros v Hv. simpl in Hv.
    destruct Hv as [<- | [<- | [<- | []]]]; simpl; lia.
Defined.

(** ** Collections of features fresh from the detector *)

(** X26: on a collection whose first feature is fresh from the detector
    (no extent or corner accessor called on it), [inside], [outside] and
    [overlaps] with a circle, and [overlaps] with a point, raise
    [TypeError] at that feature; no feature is changed and nothing is
    selected. *)
Theorem collection_query_on_fresh_feature :
  forall (i : Image) (at_x at_y : Z) (pts : list (Z * Z)) (fs : FeatureSet.t)
         (cx cy r : Z),
    let F := detected i at_x at_y pts in
    FeatureSet.inside (F :: fs) (OTuple [cx; cy; r])
      = (F :: fs, OTuple [cx; cy; r], ([], Raise TypeError))
    /\ FeatureSet.outside (F :: fs) (OTuple [cx; cy; r])
       = (F :: fs, OTuple [cx; cy; r], ([], Raise TypeError))
    /\ FeatureSet.overlaps (F :: fs) (OTuple [cx; cy; r])
       = (F :: fs, OTuple [cx; cy; r], ([], Raise TypeError))
    /\ FeatureSet.overlaps (F :: fs) (OTuple [cx; cy])
       = (F :: fs, OTuple [cx; cy], ([], Raise TypeError)).
Proof. intros i at_x at_y pts fs cx cy r F. repeat split. Qed.

Lemma directional_detected_points_witness :
  snd (above (strip 10) (OFeature (detected image100 0 0 [(0, 5); (3, 7)])))
  = ([], Ret (Some true)).
Proof.
  destruct (directional_detected_points image100 image100 0 0 0 0
              [(0, 0); (10, 1)] [(0, 5); (3, 7)]) as (Ha & _);
    [discriminate | discriminate |].
  apply Ha. intros u v Hu Hv. simpl in Hu, Hv.
  destruct Hu as [<- | [<- | []]], Hv as [<- | [<- | []]]; simpl; lia.
Defined.
